(** * TableGenerator: the grid/merge model of [src/app/page.tsx] and its
      two text generators, embedded as pure state-passing functions.

    The React component keeps four pieces of state ([config], [mergedCells],
    [nextCellId], [selectedCells]) plus a [dragState]; every handler is a
    synchronous transition on that state.  Numbers that the handlers compare,
    add and clamp are integers of the page (grid indices, pixel counts) and
    are modelled as [Z]; strings are [string]. *)

From Stdlib Require Import ZArith List Bool String Ascii Lia DecimalString Sorted.
Import ListNotations.
Open Scope string_scope.
Open Scope list_scope.
Open Scope Z_scope.

(** String concatenation, as [+] and template literals do it. *)
Infix "+++" := String.append (right associativity, at level 60).

(** ** JavaScript helpers used by the component *)

Module Js.

(** [Math.min(...xs)] and [Math.max(...xs)] on a non-empty argument list
    (with no argument JavaScript answers [Infinity] / [-Infinity]; the
    component only spreads selections of two or more cells, the model
    answers 0 on the empty list). *)
Definition min_of (xs : list Z) : Z :=
  match xs with
  | [] => 0
  | x :: rest => fold_left Z.min rest x
  end.

Definition max_of (xs : list Z) : Z :=
  match xs with
  | [] => 0
  | x :: rest => fold_left Z.max rest x
  end.

(** Template-literal rendering [`${n}`] of an integer (decimal digits, a
    leading minus sign for negative numbers). *)
Definition num (n : Z) : string := NilZero.string_of_int (Z.to_int n).

(** [parseInt(s) || d]: the parse result is [None] for [NaN]; [NaN] and 0
    are falsy and give the default. *)
Definition or_default (parsed : option Z) (d : Z) : Z :=
  match parsed with
  | None => d
  | Some 0 => d
  | Some v => v
  end.

(** [Array(n).fill(v)]: a [RangeError] ([None]) unless [0 <= n < 2^32]. *)
Definition array_fill (n v : Z) : option (list Z) :=
  if (0 <=? n) && (n <? 2 ^ 32) then Some (repeat v (Z.to_nat n)) else None.

(** [xs.map((x, index) => f x index)]. *)
Fixpoint mapi_from {A B : Type} (k : Z) (f : A -> Z -> B) (xs : list A) : list B :=
  match xs with
  | [] => []
  | x :: rest => f x k :: mapi_from (k + 1) f rest
  end.

Definition mapi {A B : Type} (f : A -> Z -> B) (xs : list A) : list B :=
  mapi_from 0 f xs.

(** [xs[i]] for an integer index; [None] is [undefined]. *)
Definition index {A : Type} (xs : list A) (i : Z) : option A :=
  if i <? 0 then None else nth_error xs (Z.to_nat i).

(** The indices [0 .. n-1] visited by [for (let i = 0; i < n; i++)]. *)
Definition upto (n : Z) : list Z := map Z.of_nat (seq 0 (Z.to_nat n)).

Definition nl : string := String (ascii_of_nat 10) EmptyString.
Definition dq : string := String (ascii_of_nat 34) EmptyString.

End Js.

(** ** Data model (the interfaces at the top of the file) *)

Inductive BorderStyle : Type := solid | dashed | none.

Record TableConfig : Type := mkConfig {
  rows : Z;
  columns : Z;
  gap : Z;
  borderStyle : BorderStyle;
  borderColor : string;
  cellPadding : Z;
  cellBackgroundColor : string;
  borderRadius : Z;
  fillSampleText : bool;
  columnWidths : list Z;
  rowHeights : list Z
}.

Record MergedCell : Type := mkMerged {
  id : Z;
  rowStart : Z;
  rowEnd : Z;
  colStart : Z;
  colEnd : Z;
  content : string
}.

(** An element [{row, col}] of [selectedCells]. *)
Record Coord : Type := mkCoord { row : Z; col : Z }.

Record DragState : Type := mkDrag {
  isDragging : bool;
  cellId : option Z;
  startX : Z;
  startY : Z;
  offsetX : Z;
  offsetY : Z;
  currentX : Z;
  currentY : Z;
  isResizing : bool;
  isResizingColumn : bool;
  isResizingRow : bool;
  isResizingIndividualCell : bool;
  resizingColumnIndex : option Z;
  resizingRowIndex : option Z;
  resizingCellRow : option Z;
  resizingCellCol : option Z
}.

(** The callback handed to [setTimeout] in [handleCellClick] closes over the
    [newSelection], the [nextCellId] and the [config.fillSampleText] of the
    render in which the click happened. *)
Record MergeTimer : Type := mkTimer {
  timerSelection : list Coord;
  timerCellId : Z;
  timerFill : bool
}.

(** The component state: the four [useState] cells, the drag state, the
    [lastDragUpdate] ref and the timeouts that are scheduled but not yet run
    (oldest first; all have the same 100 ms delay). *)
Record State : Type := mkState {
  config : TableConfig;
  mergedCells : list MergedCell;
  nextCellId : Z;
  selectedCells : list Coord;
  dragState : DragState;
  lastDragUpdate : Z;
  timers : list MergeTimer
}.

Definition defaultConfig : TableConfig :=
  {| rows := 3; columns := 3; gap := 8; borderStyle := solid;
     borderColor := "#000000"; cellPadding := 8;
     cellBackgroundColor := "#ffffff"; borderRadius := 0;
     fillSampleText := false;
     columnWidths := repeat 80 3; rowHeights := repeat 50 3 |}.

Definition idleDrag : DragState :=
  {| isDragging := false; cellId := None; startX := 0; startY := 0;
     offsetX := 0; offsetY := 0; currentX := 0; currentY := 0;
     isResizing := false; isResizingColumn := false; isResizingRow := false;
     isResizingIndividualCell := false; resizingColumnIndex := None;
     resizingRowIndex := None; resizingCellRow := None;
     resizingCellCol := None |}.

Definition initialState : State :=
  {| config := defaultConfig; mergedCells := []; nextCellId := 1;
     selectedCells := []; dragState := idleDrag; lastDragUpdate := 0;
     timers := [] |}.

(** State setters ([setConfig], [setMergedCells], ...). *)
Definition setConfig (f : TableConfig -> TableConfig) (st : State) : State :=
  {| config := f (config st); mergedCells := mergedCells st;
     nextCellId := nextCellId st; selectedCells := selectedCells st;
     dragState := dragState st; lastDragUpdate := lastDragUpdate st;
     timers := timers st |}.

Definition setMergedCells (f : list MergedCell -> list MergedCell) (st : State) : State :=
  {| config := config st; mergedCells := f (mergedCells st);
     nextCellId := nextCellId st; selectedCells := selectedCells st;
     dragState := dragState st; lastDragUpdate := lastDragUpdate st;
     timers := timers st |}.

Definition setNextCellId (f : Z -> Z) (st : State) : State :=
  {| config := config st; mergedCells := mergedCells st;
     nextCellId := f (nextCellId st); selectedCells := selectedCells st;
     dragState := dragState st; lastDragUpdate := lastDragUpdate st;
     timers := timers st |}.

Definition setSelectedCells (f : list Coord -> list Coord) (st : State) : State :=
  {| config := config st; mergedCells := mergedCells st;
     nextCellId := nextCellId st; selectedCells := f (selectedCells st);
     dragState := dragState st; lastDragUpdate := lastDragUpdate st;
     timers := timers st |}.

Definition setDragState (f : DragState -> DragState) (st : State) : State :=
  {| config := config st; mergedCells := mergedCells st;
     nextCellId := nextCellId st; selectedCells := selectedCells st;
     dragState := f (dragState st); lastDragUpdate := lastDragUpdate st;
     timers := timers st |}.

Definition setLastDragUpdate (now : Z) (st : State) : State :=
  {| config := config st; mergedCells := mergedCells st;
     nextCellId := nextCellId st; selectedCells := selectedCells st;
     dragState := dragState st; lastDragUpdate := now;
     timers := timers st |}.

Definition setTimers (f : list MergeTimer -> list MergeTimer) (st : State) : State :=
  {| config := config st; mergedCells := mergedCells st;
     nextCellId := nextCellId st; selectedCells := selectedCells st;
     dragState := dragState st; lastDragUpdate := lastDragUpdate st;
     timers := f (timers st) |}.

(** ** Grid model: [updateConfig] and the size effect *)

(** [updateConfig(key, value)]: one constructor per key of [TableConfig]. *)
Inductive ConfigUpdate : Type :=
| SetRows (v : Z)
| SetColumns (v : Z)
| SetGap (v : Z)
| SetBorderStyle (v : BorderStyle)
| SetBorderColor (v : string)
| SetCellPadding (v : Z)
| SetCellBackgroundColor (v : string)
| SetBorderRadius (v : Z)
| SetFillSampleText (v : bool)
| SetColumnWidths (v : list Z)
| SetRowHeights (v : list Z).

Definition withSizes (ws hs : list Z) (c : TableConfig) : TableConfig :=
  {| rows := rows c; columns := columns c; gap := gap c;
     borderStyle := borderStyle c; borderColor := borderColor c;
     cellPadding := cellPadding c;
     cellBackgroundColor := cellBackgroundColor c;
     borderRadius := borderRadius c; fillSampleText := fillSampleText c;
     columnWidths := ws; rowHeights := hs |}.

(** [{ ...prev, [key]: value }]. *)
Definition assign (u : ConfigUpdate) (c : TableConfig) : TableConfig :=
  match u with
  | SetRows v =>
      mkConfig v (columns c) (gap c) (borderStyle c) (borderColor c)
        (cellPadding c) (cellBackgroundColor c) (borderRadius c)
        (fillSampleText c) (columnWidths c) (rowHeights c)
  | SetColumns v =>
      mkConfig (rows c) v (gap c) (borderStyle c) (borderColor c)
        (cellPadding c) (cellBackgroundColor c) (borderRadius c)
        (fillSampleText c) (columnWidths c) (rowHeights c)
  | SetGap v =>
      mkConfig (rows c) (columns c) v (borderStyle c) (borderColor c)
        (cellPadding c) (cellBackgroundColor c) (borderRadius c)
        (fillSampleText c) (columnWidths c) (rowHeights c)
  | SetBorderStyle v =>
      mkConfig (rows c) (columns c) (gap c) v (borderColor c)
        (cellPadding c) (cellBackgroundColor c) (borderRadius c)
        (fillSampleText c) (columnWidths c) (rowHeights c)
  | SetBorderColor v =>
      mkConfig (rows c) (columns c) (gap c) (borderStyle c) v
        (cellPadding c) (cellBackgroundColor c) (borderRadius c)
        (fillSampleText c) (columnWidths c) (rowHeights c)
  | SetCellPadding v =>
      mkConfig (rows c) (columns c) (gap c) (borderStyle c) (borderColor c)
        v (cellBackgroundColor c) (borderRadius c)
        (fillSampleText c) (columnWidths c) (rowHeights c)
  | SetCellBackgroundColor v =>
      mkConfig (rows c) (columns c) (gap c) (borderStyle c) (borderColor c)
        (cellPadding c) v (borderRadius c)
        (fillSampleText c) (columnWidths c) (rowHeights c)
  | SetBorderRadius v =>
      mkConfig (rows c) (columns c) (gap c) (borderStyle c) (borderColor c)
        (cellPadding c) (cellBackgroundColor c) v
        (fillSampleText c) (columnWidths c) (rowHeights c)
  | SetFillSampleText v =>
      mkConfig (rows c) (columns c) (gap c) (borderStyle c) (borderColor c)
        (cellPadding c) (cellBackgroundColor c) (borderRadius c)
        v (columnWidths c) (rowHeights c)
  | SetColumnWidths v => withSizes v (rowHeights c) c
  | SetRowHeights v => withSizes (columnWidths c) v c
  end.

Definition updateConfig (u : ConfigUpdate) (st : State) : State :=
  setConfig (assign u) st.

(** The body of the effect with dependencies [[config.columns, config.rows]]:
    both sizing arrays are rebuilt from the current counts.  [None] is the
    [RangeError] of [Array(n)]. *)
Definition sizeEffect (st : State) : option State :=
  match Js.array_fill (columns (config st)) 80 with
  | None => None
  | Some ws =>
      match Js.array_fill (rows (config st)) 50 with
      | None => None
      | Some hs => Some (setConfig (withSizes ws hs) st)
      end
  end.

(** After a render React runs the effect when one of its dependencies
    differs from the previous render ([before] is the previous config). *)
Definition runEffects (before : TableConfig) (st : State) : option State :=
  if (columns (config st) =? columns before) && (rows (config st) =? rows before)
  then Some st
  else sizeEffect st.

(** A config update followed by the effects of the re-render. *)
Definition changeConfig (u : ConfigUpdate) (st : State) : option State :=
  runEffects (config st) (updateConfig u st).

(** [onChange] of the Rows and Columns inputs:
    [updateConfig('rows', parseInt(e.target.value) || 1)]; [parsed] is the
    result of [parseInt]. *)
Definition onRowsChange (parsed : option Z) (st : State) : option State :=
  changeConfig (SetRows (Js.or_default parsed 1)) st.

Definition onColumnsChange (parsed : option Z) (st : State) : option State :=
  changeConfig (SetColumns (Js.or_default parsed 1)) st.

Definition resetTable (st : State) : State :=
  setNextCellId (fun _ => 1)
    (setSelectedCells (fun _ => [])
       (setMergedCells (fun _ => [])
          (setConfig (fun _ => defaultConfig) st))).

(** ** Merge registry *)

(** The predicate shared by [isCellMerged], [getMergedCell] and the filter of
    [handleCellClick]:
    [row >= cell.rowStart && row < cell.rowEnd &&
     col >= cell.colStart && col < cell.colEnd]. *)
Definition covers (r c : Z) (cell : MergedCell) : bool :=
  (rowStart cell <=? r) && (r <? rowEnd cell) &&
  (colStart cell <=? c) && (c <? colEnd cell).

Definition isCellMerged (st : State) (r c : Z) : bool :=
  existsb (covers r c) (mergedCells st).

Definition getMergedCell (st : State) (r c : Z) : option MergedCell :=
  find (covers r c) (mergedCells st).

(** [cell.row === row && cell.col === col]. *)
Definition sameCoord (r c : Z) (cell : Coord) : bool :=
  (row cell =? r) && (col cell =? c).

(** The merged cell built from a selection: the bounding box of the selected
    coordinates (the same lines appear in the timeout of [handleCellClick]
    and in the "Merge Selected Cells" button). *)
Definition newMergedCell (sel : list Coord) (cid : Z) (fill : bool) : MergedCell :=
  let minRow := Js.min_of (map row sel) in
  let maxRow := Js.max_of (map row sel) in
  let minCol := Js.min_of (map col sel) in
  let maxCol := Js.max_of (map col sel) in
  {| id := cid;
     rowStart := minRow; rowEnd := maxRow + 1;
     colStart := minCol; colEnd := maxCol + 1;
     content := if fill then "Merged " +++ Js.num cid else EmptyString |}.

(** The three state updates that end both merge paths. *)
Definition addMerged (cell : MergedCell) (st : State) : State :=
  setSelectedCells (fun _ => [])
    (setNextCellId (fun prev => prev + 1)
       (setMergedCells (fun prev => prev ++ [cell]) st)).

(** The callback of [setTimeout(..., 100)], run with the values it captured. *)
Definition mergeTimeout (t : MergeTimer) (st : State) : State :=
  addMerged (newMergedCell (timerSelection t) (timerCellId t) (timerFill t)) st.

(** The oldest scheduled timeout fires. *)
Definition fireTimeout (st : State) : State :=
  match timers st with
  | [] => st
  | t :: rest => mergeTimeout t (setTimers (fun _ => rest) st)
  end.

Definition clickBlocked (d : DragState) : bool :=
  isDragging d || isResizing d || isResizingColumn d || isResizingRow d.

Definition handleCellClick (r c : Z) (st : State) : State :=
  if clickBlocked (dragState st) then st
  else if isCellMerged st r c then
    setSelectedCells (fun _ => [])
      (setMergedCells (filter (fun cell => negb (covers r c cell))) st)
  else if existsb (sameCoord r c) (selectedCells st) then
    setSelectedCells (filter (fun cell => negb (sameCoord r c cell))) st
  else
    let newSelection := selectedCells st ++ [mkCoord r c] in
    let st1 := setSelectedCells (fun _ => newSelection) st in
    if 2 <=? Z.of_nat (List.length newSelection) then
      setTimers (fun ts => ts ++ [mkTimer newSelection (nextCellId st)
                                    (fillSampleText (config st))]) st1
    else st1.

(** [onClick] of the "Merge Selected Cells" button, which is rendered only
    while [selectedCells.length >= 2]. *)
Definition mergeSelectedClick (st : State) : State :=
  if 2 <=? Z.of_nat (List.length (selectedCells st)) then
    addMerged (newMergedCell (selectedCells st) (nextCellId st)
                 (fillSampleText (config st))) st
  else st.

(** [onClick] of the remove button of a merged cell:
    [prev.filter(cell => cell.id !== mergedCell.id)]. *)
Definition removeMergedClick (mid : Z) (st : State) : State :=
  setMergedCells (filter (fun cell => negb (id cell =? mid))) st.

(** ** Pointer gestures *)

(** The fields of a mouse event that the handlers read. *)
Record MouseEvent : Type := mkMouse { clientX : Z; clientY : Z }.

Definition handleColumnResizeStart (e : MouseEvent) (columnIndex : Z) (st : State) : State :=
  setDragState (fun prev =>
    {| isDragging := isDragging prev; cellId := cellId prev;
       startX := clientX e; startY := startY prev;
       offsetX := offsetX prev; offsetY := offsetY prev;
       currentX := clientX e; currentY := currentY prev;
       isResizing := isResizing prev; isResizingColumn := true;
       isResizingRow := isResizingRow prev;
       isResizingIndividualCell := isResizingIndividualCell prev;
       resizingColumnIndex := Some columnIndex;
       resizingRowIndex := resizingRowIndex prev;
       resizingCellRow := resizingCellRow prev;
       resizingCellCol := resizingCellCol prev |}) st.

Definition handleRowResizeStart (e : MouseEvent) (rowIndex : Z) (st : State) : State :=
  setDragState (fun prev =>
    {| isDragging := isDragging prev; cellId := cellId prev;
       startX := startX prev; startY := clientY e;
       offsetX := offsetX prev; offsetY := offsetY prev;
       currentX := currentX prev; currentY := clientY e;
       isResizing := isResizing prev;
       isResizingColumn := isResizingColumn prev; isResizingRow := true;
       isResizingIndividualCell := isResizingIndividualCell prev;
       resizingColumnIndex := resizingColumnIndex prev;
       resizingRowIndex := Some rowIndex;
       resizingCellRow := resizingCellRow prev;
       resizingCellCol := resizingCellCol prev |}) st.

Definition handleIndividualCellResizeStart (e : MouseEvent) (r c : Z) (st : State) : State :=
  setDragState (fun prev =>
    {| isDragging := isDragging prev; cellId := cellId prev;
       startX := clientX e; startY := clientY e;
       offsetX := offsetX prev; offsetY := offsetY prev;
       currentX := clientX e; currentY := clientY e;
       isResizing := isResizing prev;
       isResizingColumn := isResizingColumn prev;
       isResizingRow := isResizingRow prev;
       isResizingIndividualCell := true;
       resizingColumnIndex := resizingColumnIndex prev;
       resizingRowIndex := resizingRowIndex prev;
       resizingCellRow := Some r; resizingCellCol := Some c |}) st.

(** [rectLeft], [rectTop]: the corner of the handle's bounding rectangle. *)
Definition handleDragStart (e : MouseEvent) (rectLeft rectTop : Z) (cid : Z) (st : State) : State :=
  setDragState (fun prev =>
    {| isDragging := true; cellId := Some cid;
       startX := clientX e; startY := clientY e;
       offsetX := clientX e - rectLeft; offsetY := clientY e - rectTop;
       currentX := clientX e; currentY := clientY e;
       isResizing := false; isResizingColumn := false;
       isResizingRow := false;
       isResizingIndividualCell := isResizingIndividualCell prev;
       resizingColumnIndex := resizingColumnIndex prev;
       resizingRowIndex := resizingRowIndex prev;
       resizingCellRow := resizingCellRow prev;
       resizingCellCol := resizingCellCol prev |}) st.

Definition handleResizeStart (e : MouseEvent) (cid : Z) (st : State) : State :=
  setDragState (fun prev =>
    {| isDragging := false; cellId := Some cid;
       startX := clientX e; startY := clientY e;
       offsetX := 0; offsetY := 0;
       currentX := clientX e; currentY := clientY e;
       isResizing := true; isResizingColumn := false;
       isResizingRow := false;
       isResizingIndividualCell := isResizingIndividualCell prev;
       resizingColumnIndex := resizingColumnIndex prev;
       resizingRowIndex := resizingRowIndex prev;
       resizingCellRow := resizingCellRow prev;
       resizingCellCol := resizingCellCol prev |}) st.

(** [xs.map((x, index) => index === target ? v : x)]. *)
Definition replaceAt (target v : Z) (xs : list Z) : list Z :=
  Js.mapi (fun x index => if index =? target then v else x) xs.

(** [Math.max(lo, xs[i] + delta)]; when [xs[i]] is [undefined] the sum is
    [NaN], but then no index of the following [map] equals [i] and the value
    is never stored: the model answers [lo]. *)
Definition grownSize (lo : Z) (xs : list Z) (i delta : Z) : Z :=
  match Js.index xs i with
  | Some x => Z.max lo (x + delta)
  | None => lo
  end.

Definition handleColumnResizeMove (e : MouseEvent) (st : State) : State :=
  let d := dragState st in
  match isResizingColumn d, resizingColumnIndex d with
  | true, Some i =>
      let deltaX := clientX e - startX d in
      let newWidth := grownSize 40 (columnWidths (config st)) i deltaX in
      setConfig (fun prev =>
        withSizes (replaceAt i newWidth (columnWidths prev)) (rowHeights prev) prev) st
  | _, _ => st
  end.

Definition handleRowResizeMove (e : MouseEvent) (st : State) : State :=
  let d := dragState st in
  match isResizingRow d, resizingRowIndex d with
  | true, Some i =>
      let deltaY := clientY e - startY d in
      let newHeight := grownSize 30 (rowHeights (config st)) i deltaY in
      setConfig (fun prev =>
        withSizes (columnWidths prev) (replaceAt i newHeight (rowHeights prev)) prev) st
  | _, _ => st
  end.

Definition handleIndividualCellResizeMove (e : MouseEvent) (st : State) : State :=
  let d := dragState st in
  match isResizingIndividualCell d, resizingCellRow d, resizingCellCol d with
  | true, Some rowIndex, Some colIndex =>
      let deltaX := clientX e - startX d in
      let deltaY := clientY e - startY d in
      let newColWidth := grownSize 40 (columnWidths (config st)) colIndex deltaX in
      let newRowHeight := grownSize 30 (rowHeights (config st)) rowIndex deltaY in
      setConfig (fun prev =>
        withSizes (replaceAt colIndex newColWidth (columnWidths prev))
                  (replaceAt rowIndex newRowHeight (rowHeights prev)) prev) st
  | _, _, _ => st
  end.

(** [!dragState.cellId]: [null] and 0 are falsy. *)
Definition activeCellId (d : DragState) : option Z :=
  match cellId d with
  | Some 0 => None
  | other => other
  end.

(** The callback of [prev.map(...)] in [handleDragMove]: the dragged cell is
    shifted by the grid delta, kept inside the table, its spans kept. *)
Definition moveCell (cfg : TableConfig) (dragged colDelta rowDelta : Z) (cell : MergedCell) : MergedCell :=
  if id cell =? dragged then
    let rowSpan := rowEnd cell - rowStart cell in
    let colSpan := colEnd cell - colStart cell in
    let newColStart := Z.max 0 (Z.min (colStart cell + colDelta) (columns cfg - colSpan)) in
    let newRowStart := Z.max 0 (Z.min (rowStart cell + rowDelta) (rows cfg - rowSpan)) in
    if (newColStart =? colStart cell) && (newRowStart =? rowStart cell) then cell
    else
      {| id := id cell;
         rowStart := newRowStart; rowEnd := newRowStart + rowSpan;
         colStart := newColStart; colEnd := newColStart + colSpan;
         content := content cell |}
  else cell.

(** The callback of [prev.map(...)] in [handleResizeMove]: only [colEnd] and
    [rowEnd] of the resized cell change. *)
Definition resizeCell (cfg : TableConfig) (resized colDelta rowDelta : Z) (cell : MergedCell) : MergedCell :=
  if id cell =? resized then
    let originalColSpan := colEnd cell - colStart cell in
    let originalRowSpan := rowEnd cell - rowStart cell in
    let newColEnd :=
      Z.max (colStart cell + 1)
            (Z.min (colStart cell + originalColSpan + colDelta) (columns cfg)) in
    let newRowEnd :=
      Z.max (rowStart cell + 1)
            (Z.min (rowStart cell + originalRowSpan + rowDelta) (rows cfg)) in
    if (newColEnd =? colEnd cell) && (newRowEnd =? rowEnd cell) then cell
    else
      {| id := id cell;
         rowStart := rowStart cell; rowEnd := newRowEnd;
         colStart := colStart cell; colEnd := newColEnd;
         content := content cell |}
  else cell.

(** [handleDragMove].  [now] is [Date.now()].  [colDelta] and [rowDelta] are
    the values of
    [Math.round((deltaX * sensitivity) / (avgCellWidth + config.gap))] and of
    its row counterpart; that conversion is floating-point arithmetic and
    enters the model through its integer result, every integer being a
    possible one. *)
Definition handleDragMove (e : MouseEvent) (now colDelta rowDelta : Z) (st : State) : State :=
  let d := dragState st in
  match isDragging d, activeCellId d with
  | true, Some dragged =>
      if now - lastDragUpdate st <? 16 then st
      else
        let st1 := setLastDragUpdate now st in
        let deltaX := clientX e - startX d in
        let deltaY := clientY e - startY d in
        if (Z.abs deltaX <? 8) && (Z.abs deltaY <? 8) then st1
        else setMergedCells (map (moveCell (config st) dragged colDelta rowDelta)) st1
  | _, _ => st
  end.

(** [handleResizeMove]; [colDelta], [rowDelta] as in [handleDragMove] (here
    the sensitivity is 1.2 and the threshold 10 pixels). *)
Definition handleResizeMove (e : MouseEvent) (colDelta rowDelta : Z) (st : State) : State :=
  let d := dragState st in
  match isResizing d, activeCellId d with
  | true, Some resized =>
      let deltaX := clientX e - startX d in
      let deltaY := clientY e - startY d in
      if (Z.abs deltaX <? 10) && (Z.abs deltaY <? 10) then st
      else setMergedCells (map (resizeCell (config st) resized colDelta rowDelta)) st
  | _, _ => st
  end.

Definition handleDragEnd (st : State) : State :=
  setDragState (fun _ => idleDrag) st.

(** The [mousemove] listener installed by the second effect: one handler is
    chosen from the drag flags. *)
Definition onMouseMove (e : MouseEvent) (now colDelta rowDelta : Z) (st : State) : State :=
  let d := dragState st in
  if isDragging d || isResizing d || isResizingColumn d || isResizingRow d
     || isResizingIndividualCell d then
    if isResizingColumn d then handleColumnResizeMove e st
    else if isResizingRow d then handleRowResizeMove e st
    else if isResizing d then handleResizeMove e colDelta rowDelta st
    else if isResizingIndividualCell d then handleIndividualCellResizeMove e st
    else handleDragMove e now colDelta rowDelta st
  else st.

(** The [mouseup] listener is installed under the same condition. *)
Definition onMouseUp (st : State) : State :=
  let d := dragState st in
  if isDragging d || isResizing d || isResizingColumn d || isResizingRow d
     || isResizingIndividualCell d then handleDragEnd st
  else st.

(** ** Renderer *)

Definition borderStyleName (b : BorderStyle) : string :=
  match b with
  | solid => "solid"
  | dashed => "dashed"
  | none => "none"
  end.

(** [config.borderStyle === 'none' ? 'none'
      : `1px ${config.borderStyle} ${config.borderColor}`]. *)
Definition borderValue (cfg : TableConfig) : string :=
  match borderStyle cfg with
  | none => "none"
  | b => "1px " +++ borderStyleName b +++ " " +++ borderColor cfg
  end.

(** The opening tag of a cell up to and including the closing quote of its
    [style] attribute, with background [bg]. *)
Definition tdOpen (cfg : TableConfig) (bg : string) : string :=
  "    <td style=" +++ Js.dq +++ "border: " +++ borderValue cfg
  +++ "; padding: " +++ Js.num (cellPadding cfg)
  +++ "px; background-color: " +++ bg
  +++ "; border-radius: " +++ Js.num (borderRadius cfg) +++ "px;" +++ Js.dq.

Definition mergedTd (cfg : TableConfig) (m : MergedCell) : string :=
  let rowSpan := rowEnd m - rowStart m in
  let colSpan := colEnd m - colStart m in
  tdOpen cfg (cellBackgroundColor cfg)
  +++ " rowspan=" +++ Js.dq +++ Js.num rowSpan +++ Js.dq
  +++ " colspan=" +++ Js.dq +++ Js.num colSpan +++ Js.dq
  +++ ">" +++ content m +++ "</td>" +++ Js.nl.

Definition regularTd (cfg : TableConfig) (isSelected : bool) (i j : Z) : string :=
  let cellContent :=
    if fillSampleText cfg then "Cell " +++ Js.num (i + 1) +++ "-" +++ Js.num (j + 1)
    else EmptyString in
  let bgColor := if isSelected then "#dbeafe" else cellBackgroundColor cfg in
  tdOpen cfg bgColor +++ ">" +++ cellContent +++ "</td>" +++ Js.nl.

(** [mergedCell && i === mergedCell.rowStart && j === mergedCell.colStart]. *)
Definition startsAt (i j : Z) (mergedCell : option MergedCell) : bool :=
  match mergedCell with
  | Some m => (i =? rowStart m) && (j =? colStart m)
  | None => false
  end.

(** The body of the inner loop of [generateTableHTML]: the cell elements it
    appends for coordinate [(i, j)] (one or none). *)
Definition cellMarkup (st : State) (i j : Z) : list string :=
  let mergedCell := getMergedCell st i j in
  let isSelected := existsb (sameCoord i j) (selectedCells st) in
  if startsAt i j mergedCell then
    match mergedCell with
    | Some m => [mergedTd (config st) m]
    | None => []
    end
  else if negb (isCellMerged st i j) then [regularTd (config st) isSelected i j]
  else [].

(** The cell elements of row [i], in column order. *)
Definition rowCells (st : State) (i : Z) : list string :=
  flat_map (cellMarkup st i) (Js.upto (columns (config st))).

(** The row groups of the table, each with its cell elements. *)
Definition tableRows (st : State) : list (list string) :=
  map (rowCells st) (Js.upto (rows (config st))).

Definition rowMarkup (cells : list string) : string :=
  "  <tr>" +++ Js.nl +++ String.concat EmptyString cells +++ "  </tr>" +++ Js.nl.

Definition generateTableHTML (st : State) : string :=
  "<table style=" +++ Js.dq +++ "border-collapse: collapse;" +++ Js.dq +++ ">" +++ Js.nl
  +++ String.concat EmptyString (map rowMarkup (tableRows st))
  +++ "</table>".

Definition tableRule : string :=
  "table {" +++ Js.nl +++ "  border-collapse: collapse;" +++ Js.nl
  +++ "  width: 100%;" +++ Js.nl +++ "}".

Definition cellRule (cfg : TableConfig) : string :=
  "td {" +++ Js.nl
  +++ "  border: " +++ borderValue cfg +++ ";" +++ Js.nl
  +++ "  padding: " +++ Js.num (cellPadding cfg) +++ "px;" +++ Js.nl
  +++ "  background-color: " +++ cellBackgroundColor cfg +++ ";" +++ Js.nl
  +++ "  border-radius: " +++ Js.num (borderRadius cfg) +++ "px;" +++ Js.nl
  +++ "}".

Definition widthRule (width index : Z) : string :=
  "td:nth-child(" +++ Js.num (index + 1) +++ ") {" +++ Js.nl
  +++ "  width: " +++ Js.num width +++ "px;" +++ Js.nl +++ "}".

Definition heightRule (height index : Z) : string :=
  "tr:nth-child(" +++ Js.num (index + 1) +++ ") td {" +++ Js.nl
  +++ "  height: " +++ Js.num height +++ "px;" +++ Js.nl +++ "}".

(** [xs.forEach((x, index) => { css += `\n\n` + rule x index })] started on
    the text [css]. *)
Fixpoint appendRules (rule : Z -> Z -> string) (index : Z) (xs : list Z) (css : string) : string :=
  match xs with
  | [] => css
  | x :: rest =>
      appendRules rule (index + 1) rest (css +++ Js.nl +++ Js.nl +++ rule x index)
  end.

Definition generateCSS (st : State) : string :=
  let cfg := config st in
  let css := tableRule +++ Js.nl +++ Js.nl +++ cellRule cfg in
  let css := appendRules widthRule 0 (columnWidths cfg) css in
  appendRules heightRule 0 (rowHeights cfg) css.

(** ** The operations as events *)

Inductive Event : Type :=
| RowsInput (parsed : option Z)
| ColumnsInput (parsed : option Z)
| StyleInput (u : ConfigUpdate)
| CellClick (r c : Z)
| Timeout
| MergeButton
| RemoveButton (mid : Z)
| ColumnHandleDown (e : MouseEvent) (columnIndex : Z)
| RowHandleDown (e : MouseEvent) (rowIndex : Z)
| CellHandleDown (e : MouseEvent) (r c : Z)
| MergedHandleDown (e : MouseEvent) (shiftKey : bool) (rectLeft rectTop : Z) (cid : Z)
| MouseMove (e : MouseEvent) (now colDelta rowDelta : Z)
| MouseUp
| Reset.

(** The controls of the settings panel never write the counts or the sizing
    arrays through [StyleInput]. *)
Definition isStyleUpdate (u : ConfigUpdate) : bool :=
  match u with
  | SetRows _ | SetColumns _ | SetColumnWidths _ | SetRowHeights _ => false
  | _ => true
  end.

(** One operation; [None] when the render throws. *)
Definition step (ev : Event) (st : State) : option State :=
  match ev with
  | RowsInput parsed => onRowsChange parsed st
  | ColumnsInput parsed => onColumnsChange parsed st
  | StyleInput u => if isStyleUpdate u then changeConfig u st else Some st
  | CellClick r c => Some (handleCellClick r c st)
  | Timeout => Some (fireTimeout st)
  | MergeButton => Some (mergeSelectedClick st)
  | RemoveButton mid => Some (removeMergedClick mid st)
  | ColumnHandleDown e i => Some (handleColumnResizeStart e i st)
  | RowHandleDown e i => Some (handleRowResizeStart e i st)
  | CellHandleDown e r c => Some (handleIndividualCellResizeStart e r c st)
  | MergedHandleDown e shiftKey rectLeft rectTop cid =>
      Some (if shiftKey then handleResizeStart e cid st
            else handleDragStart e rectLeft rectTop cid st)
  | MouseMove e now colDelta rowDelta => Some (onMouseMove e now colDelta rowDelta st)
  | MouseUp => Some (onMouseUp st)
  | Reset => runEffects (config st) (resetTable st)
  end.

(** A sequence of operations from a state; it stops where a render throws. *)
Fixpoint run (evs : list Event) (st : State) : option State :=
  match evs with
  | [] => Some st
  | ev :: rest =>
      match step ev st with
      | Some st' => run rest st'
      | None => None
      end
  end.

(** ** Predicates used in the statements *)



(** A coordinate of the rendered grid. *)
Definition inGrid (cfg : TableConfig) (p : Coord) : bool :=
  (0 <=? row p) && (row p <? rows cfg) && (0 <=? col p) && (col p <? columns cfg).

(** A scheduled merge captured at least two cells, all of the grid. *)
Definition timerOk (cfg : TableConfig) (t : MergeTimer) : bool :=
  (2 <=? Z.of_nat (List.length (timerSelection t))) &&
  forallb (inGrid cfg) (timerSelection t).

(** The coordinates a merge can read (the selection and the selections of
    the scheduled timeouts) are coordinates of the current grid. *)
Definition mergeInputsInGrid (st : State) : bool :=
  forallb (inGrid (config st)) (selectedCells st) &&
  forallb (timerOk (config st)) (timers st).

(** Cells are rendered, and so clicked, only at coordinates of the grid. *)
Definition clickInGrid (ev : Event) (st : State) : bool :=
  match ev with
  | CellClick r c => inGrid (config st) (mkCoord r c)
  | _ => true
  end.

Definition isDimensionInput (ev : Event) : bool :=
  match ev with
  | RowsInput _ | ColumnsInput _ => true
  | _ => false
  end.

Definition isReset (ev : Event) : bool :=
  match ev with
  | Reset => true
  | _ => false
  end.




(** The ids given to the merged cells that an operation creates in [st]
    (see [created_sound] for the link with [step]). *)
Definition created (ev : Event) (st : State) : list Z :=
  match ev with
  | Timeout =>
      match timers st with
      | t :: _ => [timerCellId t]
      | [] => []
      end
  | MergeButton =>
      if 2 <=? Z.of_nat (List.length (selectedCells st)) then [nextCellId st] else []
  | _ => []
  end.





(** States used in examples. *)

(** Cells (0,0) and (1,1) merged, then cells (1,2) and (2,1): the two
    bounding boxes share the coordinate (1,1). *)
Definition overlapRun : list Event :=
  [CellClick 0 0; CellClick 1 1; Timeout; CellClick 1 2; CellClick 2 1; Timeout].




Definition stateAfter (evs : list Event) : State :=
  match run evs initialState with
  | Some st => st
  | None => initialState
  end.

(** ** Layout values and the live preview *)

(** [xs.reduce((sum, x) => sum + x, 0)]. *)
Definition total (xs : list Z) : Z := fold_left (fun sum x => sum + x) xs 0.

(** [totalWidth] and [totalHeight], computed before the component returns. *)
Definition totalWidth (st : State) : Z :=
  total (columnWidths (config st)) + (columns (config st) - 1) * gap (config st).

Definition totalHeight (st : State) : Z :=
  total (rowHeights (config st)) + (rows (config st) - 1) * gap (config st).

(** [left] of the column resize handle number [i] (an index of
    [Array.from({ length: config.columns - 1 })], so [0 <= i]):
    [columnWidths.slice(0, i + 1).reduce(...) + (i + 1) * gap + 32 - 1]. *)
Definition columnHandleLeft (st : State) (i : Z) : Z :=
  total (firstn (Z.to_nat (i + 1)) (columnWidths (config st)))
  + (i + 1) * gap (config st) + 32 - 1.

(** The handles rendered over the preview: handle [i] starts a resize of
    column (row) [i + 1]. *)
Definition columnHandles (st : State) : list Z := Js.upto (columns (config st) - 1).
Definition rowHandles (st : State) : list Z := Js.upto (rows (config st) - 1).

Definition columnHandleDown (e : MouseEvent) (i : Z) (st : State) : State :=
  handleColumnResizeStart e (i + 1) st.

Definition rowHandleDown (e : MouseEvent) (i : Z) (st : State) : State :=
  handleRowResizeStart e (i + 1) st.

(** The border of a preview cell (2px where the markup has 1px). *)
Definition previewBorder (cfg : TableConfig) : string :=
  match borderStyle cfg with
  | none => "none"
  | b => "2px " +++ borderStyleName b +++ " " +++ borderColor cfg
  end.

(** A cell of the preview grid with the style values that depend on the
    state.  For a merged cell the cursor, opacity, transform, z-index and
    shadow are functions of the two flags [isBeingDragged] and
    [isBeingResized]. *)
Inductive PreviewCell : Type :=
| MergedDiv (gridRow gridColumn border padding backgroundColor borderRadius content : string)
            (isBeingDragged isBeingResized : bool)
| RegularDiv (border padding backgroundColor borderRadius content : string).

(** [dragState.cellId === mergedCell.id]. *)
Definition targets (d : DragState) (m : MergedCell) : bool :=
  match cellId d with
  | Some cid => cid =? id m
  | None => false
  end.

(** The callback of the inner [Array.from] of the preview; [None] is the
    [null] returned for a covered coordinate. *)
Definition previewCell (st : State) (i j : Z) : option PreviewCell :=
  let cfg := config st in
  let mergedCell := getMergedCell st i j in
  let isSelected := existsb (sameCoord i j) (selectedCells st) in
  if startsAt i j mergedCell then
    match mergedCell with
    | Some m =>
        let rowSpan := rowEnd m - rowStart m in
        let colSpan := colEnd m - colStart m in
        Some (MergedDiv
                (Js.num (i + 1) +++ " / span " +++ Js.num rowSpan)
                (Js.num (j + 1) +++ " / span " +++ Js.num colSpan)
                (previewBorder cfg)
                (Js.num (cellPadding cfg) +++ "px")
                (cellBackgroundColor cfg)
                (Js.num (borderRadius cfg) +++ "px")
                (content m)
                (isDragging (dragState st) && targets (dragState st) m)
                (isResizing (dragState st) && targets (dragState st) m))
    | None => None
    end
  else if negb (isCellMerged st i j) then
    Some (RegularDiv
            (previewBorder cfg)
            (Js.num (cellPadding cfg) +++ "px")
            (if isSelected then "#dbeafe" else cellBackgroundColor cfg)
            (Js.num (borderRadius cfg) +++ "px")
            (if fillSampleText cfg
             then "Cell " +++ Js.num (i + 1) +++ "-" +++ Js.num (j + 1)
             else EmptyString))
  else None.

(** The children that React renders for row [i] ([null] renders nothing). *)
Definition previewRow (st : State) (i : Z) : list PreviewCell :=
  flat_map (fun j => match previewCell st i j with Some d => [d] | None => [] end)
           (Js.upto (columns (config st))).

Definition previewRows (st : State) : list (list PreviewCell) :=
  map (previewRow st) (Js.upto (rows (config st))).

(** The text of a preview cell and its background. *)
Definition previewContent (d : PreviewCell) : string :=
  match d with
  | MergedDiv _ _ _ _ _ _ content _ _ => content
  | RegularDiv _ _ _ _ content => content
  end.

(** ** Further predicates *)

(** The sizing arrays have one entry per column and per row, none below the
    minimum of the resize handlers. *)
Definition sizesTrack (st : State) : bool :=
  (Z.of_nat (List.length (columnWidths (config st))) =? columns (config st)) &&
  (Z.of_nat (List.length (rowHeights (config st))) =? rows (config st)) &&
  forallb (fun w => 40 <=? w) (columnWidths (config st)) &&
  forallb (fun h => 30 <=? h) (rowHeights (config st)).


(** A scheduled merge captured two or more coordinates. *)
Definition holdsTwo (t : MergeTimer) : Prop :=
  (2 <= List.length (timerSelection t))%nat.

(** No gesture flag is set. *)
Definition noGesture (d : DragState) : bool :=
  negb (isDragging d || isResizing d || isResizingColumn d || isResizingRow d
        || isResizingIndividualCell d).

(** ** The earlier version of the component (second half of the file)

    It has no sizing arrays, merges in the click handler itself and places a
    dragged cell at the grid cell under the pointer.  Its state is read
    through the same records; the fields it does not have are not touched. *)

Module Legacy.

(** [handleCellClick]: the merge happens in the click that brings the
    selection to two entries, and a cell that is already selected is added
    again. *)
Definition handleCellClick (r c : Z) (st : State) : State :=
  if isDragging (dragState st) || isResizing (dragState st) then st
  else if isCellMerged st r c then
    setSelectedCells (fun _ => [])
      (setMergedCells (filter (fun cell => negb (covers r c cell))) st)
  else
    let newSelection := selectedCells st ++ [mkCoord r c] in
    let st1 := setSelectedCells (fun _ => newSelection) st in
    if 2 <=? Z.of_nat (List.length newSelection) then
      let minRow := Js.min_of (map row newSelection) in
      let maxRow := Js.max_of (map row newSelection) in
      let minCol := Js.min_of (map col newSelection) in
      let maxCol := Js.max_of (map col newSelection) in
      let newMergedCell :=
        {| id := nextCellId st;
           rowStart := minRow; rowEnd := maxRow + 1;
           colStart := minCol; colEnd := maxCol + 1;
           content := if fillSampleText (config st)
                      then "Cell " +++ Js.num (nextCellId st) else EmptyString |} in
      setSelectedCells (fun _ => [])
        (setNextCellId (fun prev => prev + 1)
           (setMergedCells (fun prev => prev ++ [newMergedCell]) st1))
    else st1.

(** The callback of [prev.map(...)] in [handleDragMove]; [newCol] and
    [newRow] are the values of
    [Math.floor((e.clientX - tableRect.left) / (cellWidth + config.gap))] and
    of its row counterpart (floating-point arithmetic on the measured table,
    taken by its integer result). *)
Definition moveCell (cfg : TableConfig) (dragged newCol newRow : Z) (cell : MergedCell) : MergedCell :=
  let clampedCol := Z.max 0 (Z.min newCol (columns cfg - 1)) in
  let clampedRow := Z.max 0 (Z.min newRow (rows cfg - 1)) in
  if id cell =? dragged then
    let rowSpan := rowEnd cell - rowStart cell in
    let colSpan := colEnd cell - colStart cell in
    {| id := id cell;
       rowStart := clampedRow; rowEnd := Z.min (clampedRow + rowSpan) (rows cfg);
       colStart := clampedCol; colEnd := Z.min (clampedCol + colSpan) (columns cfg);
       content := content cell |}
  else cell.

(** The callback of [prev.map(...)] in [handleResizeMove]. *)
Definition resizeCell (cfg : TableConfig) (resized newCol newRow : Z) (cell : MergedCell) : MergedCell :=
  let clampedCol := Z.max 0 (Z.min newCol (columns cfg - 1)) in
  let clampedRow := Z.max 0 (Z.min newRow (rows cfg - 1)) in
  if id cell =? resized then
    {| id := id cell;
       rowStart := rowStart cell;
       rowEnd := Z.max (rowStart cell + 1) (Z.min (clampedRow + 1) (rows cfg));
       colStart := colStart cell;
       colEnd := Z.max (colStart cell + 1) (Z.min (clampedCol + 1) (columns cfg));
       content := content cell |}
  else cell.

(** [setDragState(prev => ({ ...prev, currentX, currentY }))]. *)
Definition trackPointer (e : MouseEvent) (st : State) : State :=
  setDragState (fun prev =>
    {| isDragging := isDragging prev; cellId := cellId prev;
       startX := startX prev; startY := startY prev;
       offsetX := offsetX prev; offsetY := offsetY prev;
       currentX := clientX e; currentY := clientY e;
       isResizing := isResizing prev;
       isResizingColumn := isResizingColumn prev;
       isResizingRow := isResizingRow prev;
       isResizingIndividualCell := isResizingIndividualCell prev;
       resizingColumnIndex := resizingColumnIndex prev;
       resizingRowIndex := resizingRowIndex prev;
       resizingCellRow := resizingCellRow prev;
       resizingCellCol := resizingCellCol prev |}) st.

Definition handleDragMove (e : MouseEvent) (newCol newRow : Z) (st : State) : State :=
  match isDragging (dragState st), activeCellId (dragState st) with
  | true, Some dragged =>
      setMergedCells (map (moveCell (config st) dragged newCol newRow)) (trackPointer e st)
  | _, _ => st
  end.

Definition handleResizeMove (e : MouseEvent) (newCol newRow : Z) (st : State) : State :=
  match isResizing (dragState st), activeCellId (dragState st) with
  | true, Some resized =>
      setMergedCells (map (resizeCell (config st) resized newCol newRow)) (trackPointer e st)
  | _, _ => st
  end.

(** [generateCSS] of the earlier version: the table rule (without a width)
    and the cell rule. *)
Definition generateCSS (st : State) : string :=
  "table {" +++ Js.nl +++ "  border-collapse: collapse;" +++ Js.nl +++ "}"
  +++ Js.nl +++ Js.nl +++ cellRule (config st).

End Legacy.

(** * Properties *)

(** ** Auxiliary facts *)

(** Boolean tests of the handlers turned into arithmetic facts. *)
Ltac unbool :=
  repeat match goal with
  | H : _ && _ = true |- _ => apply andb_true_iff in H; destruct H
  | H : (_ <=? _) = true |- _ => apply Z.leb_le in H
  | H : (_ <? _) = true |- _ => apply Z.ltb_lt in H
  | H : (_ =? _) = true |- _ => apply Z.eqb_eq in H
  | H : (_ <=? _) = false |- _ => apply Z.leb_gt in H
  | H : (_ <? _) = false |- _ => apply Z.ltb_ge in H
  | H : (_ =? _) = false |- _ => apply Z.eqb_neq in H
  end.

Ltac rebool :=
  repeat match goal with
  | |- _ && _ = true => apply andb_true_iff; split
  | |- (_ <=? _) = true => apply Z.leb_le
  | |- (_ <? _) = true => apply Z.ltb_lt
  | |- (_ =? _) = true => apply Z.eqb_eq
  end.

(** Case analysis on the tests of a handler. *)
Ltac branches :=
  repeat match goal with
  | |- context [match ?x with _ => _ end] =>
      match type of x with
      | bool => destruct x eqn:?
      | option _ => destruct x eqn:?
      end
  end.

Section MinMax.

Lemma fold_min_spec (xs : list Z) (a : Z) :
  (fold_left Z.min xs a = a \/ In (fold_left Z.min xs a) xs) /\
  fold_left Z.min xs a <= a /\
  (forall x, In x xs -> fold_left Z.min xs a <= x).
Proof.
  revert a; induction xs as [|y ys IH]; intro a; simpl.
  - repeat split; [now left | lia | contradiction].
  - destruct (IH (Z.min a y)) as (Hin & Hle & Hall).
    repeat split.
    + destruct Hin as [Heq | Hin]; [|now right; right].
      rewrite Heq. destruct (Z.min_spec a y) as [[_ E] | [_ E]]; rewrite E; auto.
    + lia.
    + intros x [<- | Hx]; [lia | auto].
Qed.

Lemma fold_max_spec (xs : list Z) (a : Z) :
  (fold_left Z.max xs a = a \/ In (fold_left Z.max xs a) xs) /\
  a <= fold_left Z.max xs a /\
  (forall x, In x xs -> x <= fold_left Z.max xs a).
Proof.
  revert a; induction xs as [|y ys IH]; intro a; simpl.
  - repeat split; [now left | lia | contradiction].
  - destruct (IH (Z.max a y)) as (Hin & Hle & Hall).
    repeat split.
    + destruct Hin as [Heq | Hin]; [|now right; right].
      rewrite Heq. destruct (Z.max_spec a y) as [[_ E] | [_ E]]; rewrite E; auto.
    + lia.
    + intros x [<- | Hx]; [lia | auto].
Qed.

Lemma min_of_spec (xs : list Z) :
  xs <> [] ->
  In (Js.min_of xs) xs /\ forall x, In x xs -> Js.min_of xs <= x.
Proof.
  destruct xs as [|a xs]; [congruence | intros _]. unfold Js.min_of.
  destruct (fold_min_spec xs a) as (Hin & Hle & Hall). split.
  - destruct Hin as [-> | Hin]; [now left | now right].
  - intros x [<- | Hx]; auto.
Qed.

Lemma max_of_spec (xs : list Z) :
  xs <> [] ->
  In (Js.max_of xs) xs /\ forall x, In x xs -> x <= Js.max_of xs.
Proof.
  destruct xs as [|a xs]; [congruence | intros _]. unfold Js.max_of.
  destruct (fold_max_spec xs a) as (Hin & Hle & Hall). split.
  - destruct Hin as [-> | Hin]; [now left | now right].
  - intros x [<- | Hx]; auto.
Qed.

End MinMax.

(** The rectangle of [newMergedCell] is the bounding box of the selection:
    it contains every selected coordinate and each of its four sides
    touches one. *)
Lemma newMergedCell_box (sel : list Coord) (cid : Z) (fill : bool) :
  sel <> [] ->
  let m := newMergedCell sel cid fill in
  (forall p, In p sel -> covers (row p) (col p) m = true) /\
  (exists p, In p sel /\ rowStart m = row p) /\
  (exists p, In p sel /\ rowEnd m = row p + 1) /\
  (exists p, In p sel /\ colStart m = col p) /\
  (exists p, In p sel /\ colEnd m = col p + 1).
Proof.
  intros Hne m.
  assert (Hr : map row sel <> []) by (destruct sel; simpl; congruence).
  assert (Hc : map col sel <> []) by (destruct sel; simpl; congruence).
  destruct (min_of_spec _ Hr) as [Hminr Hminr_le].
  destruct (max_of_spec _ Hr) as [Hmaxr Hmaxr_le].
  destruct (min_of_spec _ Hc) as [Hminc Hminc_le].
  destruct (max_of_spec _ Hc) as [Hmaxc Hmaxc_le].
  repeat split.
  - intros p Hp. unfold covers, m; simpl.
    pose proof (Hminr_le _ (in_map row _ _ Hp)).
    pose proof (Hmaxr_le _ (in_map row _ _ Hp)).
    pose proof (Hminc_le _ (in_map col _ _ Hp)).
    pose proof (Hmaxc_le _ (in_map col _ _ Hp)).
    rebool; lia.
  - apply in_map_iff in Hminr as (p & E & Hp). exists p; simpl; auto.
  - apply in_map_iff in Hmaxr as (p & E & Hp). exists p; simpl; split; [auto | lia].
  - apply in_map_iff in Hminc as (p & E & Hp). exists p; simpl; auto.
  - apply in_map_iff in Hmaxc as (p & E & Hp). exists p; simpl; split; [auto | lia].
Qed.

(** ** Merge creation *)

(** C1. When a click on a free, unselected cell brings the selection to two
    or more coordinates, the click schedules one merge of that selection,
    and when the scheduled merge runs it appends exactly one merged cell
    whose rectangle is the bounding box of the selected coordinates
    ([rowStart] the least selected row, [rowEnd] the greatest plus one, and
    the same for columns); afterwards every coordinate of that rectangle,
    selected or not, is reported merged, and the selection is empty. *)
Theorem merge_creates_bounding_box :
  forall (st : State) (r c : Z),
    clickBlocked (dragState st) = false ->
    isCellMerged st r c = false ->
    existsb (sameCoord r c) (selectedCells st) = false ->
    selectedCells st <> [] ->
    let sel := selectedCells st ++ [mkCoord r c] in
    let t := mkTimer sel (nextCellId st) (fillSampleText (config st)) in
    handleCellClick r c st =
      setTimers (fun ts => ts ++ [t]) (setSelectedCells (fun _ => sel) st) /\
    forall (st0 : State) (rest : list MergeTimer),
      timers st0 = t :: rest ->
      exists m,
        mergedCells (fireTimeout st0) = mergedCells st0 ++ [m] /\
        id m = nextCellId st /\
        (forall x, In x (map row sel) -> rowStart m <= x < rowEnd m) /\
        In (rowStart m) (map row sel) /\ In (rowEnd m - 1) (map row sel) /\
        (forall y, In y (map col sel) -> colStart m <= y < colEnd m) /\
        In (colStart m) (map col sel) /\ In (colEnd m - 1) (map col sel) /\
        (forall r' c', rowStart m <= r' < rowEnd m -> colStart m <= c' < colEnd m ->
                       isCellMerged (fireTimeout st0) r' c' = true) /\
        selectedCells (fireTimeout st0) = [] /\
        timers (fireTimeout st0) = rest.
Proof.
  intros st r c Hblock Hfree Hnew Hsel sel t. split.
  - unfold handleCellClick. rewrite Hblock, Hfree, Hnew.
    fold sel.
    assert (Hlen : (2 <=? Z.of_nat (List.length sel)) = true).
    { apply Z.leb_le. unfold sel. rewrite length_app; simpl.
      destruct (selectedCells st); [congruence | simpl; lia]. }
    now rewrite Hlen.
  - intros st0 rest Ht.
    assert (Hne : sel <> []) by (unfold sel; destruct (selectedCells st); simpl; congruence).
    assert (Hr : map row sel <> []) by (destruct sel; simpl; congruence).
    assert (Hc : map col sel <> []) by (destruct sel; simpl; congruence).
    destruct (min_of_spec _ Hr) as [Hminr Hminr_le].
    destruct (max_of_spec _ Hr) as [Hmaxr Hmaxr_le].
    destruct (min_of_spec _ Hc) as [Hminc Hminc_le].
    destruct (max_of_spec _ Hc) as [Hmaxc Hmaxc_le].
    exists (newMergedCell sel (nextCellId st) (fillSampleText (config st))).
    unfold fireTimeout; rewrite Ht. unfold mergeTimeout; simpl.
    split; [reflexivity|]. split; [reflexivity|].
    split; [intros x Hx; specialize (Hminr_le x Hx); specialize (Hmaxr_le x Hx); lia|].
    split; [exact Hminr|].
    split; [now replace (Js.max_of (map row sel) + 1 - 1) with (Js.max_of (map row sel)) by lia|].
    split; [intros y Hy; specialize (Hminc_le y Hy); specialize (Hmaxc_le y Hy); lia|].
    split; [exact Hminc|].
    split; [now replace (Js.max_of (map col sel) + 1 - 1) with (Js.max_of (map col sel)) by lia|].
    split; [|split; reflexivity].
    intros r' c' Hr' Hc'. unfold isCellMerged; simpl.
    rewrite existsb_app; simpl. unfold covers at 2; simpl.
    replace (_ && _ && _ && _) with true; [now rewrite orb_true_r|].
      symmetry; rebool; lia.
Qed.

Lemma merge_creates_bounding_box_witness :
  let st := handleCellClick 0 0 initialState in
  handleCellClick 0 1 st =
    setTimers (fun ts => ts ++ [mkTimer [mkCoord 0 0; mkCoord 0 1] 1 false])
      (setSelectedCells (fun _ => [mkCoord 0 0; mkCoord 0 1]) st).
Proof.
  intro st.
  refine (proj1 (merge_creates_bounding_box st 0 1 _ _ _ _)).
  - reflexivity.
  - reflexivity.
  - reflexivity.
  - simpl; discriminate.
Defined.

(** ** Click to unmerge *)





(** ** Move and resize of a merged cell *)






(** ** Dimensions and sizing arrays *)

Lemma array_fill_ok (n v : Z) :
  0 <= n < 2 ^ 32 -> Js.array_fill n v = Some (repeat v (Z.to_nat n)).
Proof.
  intro H. unfold Js.array_fill.
  replace (0 <=? n) with true by (symmetry; apply Z.leb_le; lia).
  replace (n <? 2 ^ 32) with true by (symmetry; apply Z.ltb_lt; lia).
  reflexivity.
Qed.

Lemma Forall_repeat_eq (v : Z) (n : nat) : Forall (fun x => x = v) (repeat v n).
Proof. induction n; simpl; constructor; auto. Qed.

(** C7. A configuration update that changes the row count or the column
    count (to counts that are array lengths) succeeds and leaves
    [columnWidths] with as many elements as the new column count, all 80,
    and [rowHeights] with as many elements as the new row count, all 50,
    whatever the sizing arrays held before. *)
Theorem dimension_change_resets_sizes :
  forall (u : ConfigUpdate) (st : State),
    let cfg := assign u (config st) in
    rows cfg <> rows (config st) \/ columns cfg <> columns (config st) ->
    0 <= rows cfg < 2 ^ 32 ->
    0 <= columns cfg < 2 ^ 32 ->
    exists st',
      changeConfig u st = Some st' /\
      rows (config st') = rows cfg /\ columns (config st') = columns cfg /\
      Z.of_nat (List.length (columnWidths (config st'))) = columns (config st') /\
      Forall (fun w => w = 80) (columnWidths (config st')) /\
      Z.of_nat (List.length (rowHeights (config st'))) = rows (config st') /\
      Forall (fun h => h = 50) (rowHeights (config st')) /\
      mergedCells st' = mergedCells st /\ selectedCells st' = selectedCells st.
Proof.
  intros u st cfg Hchanged Hrows Hcols.
  unfold changeConfig, runEffects, updateConfig; simpl. fold cfg.
  assert (Hdeps : (columns cfg =? columns (config st)) && (rows cfg =? rows (config st)) = false).
  { apply andb_false_iff. destruct Hchanged as [H | H].
    - right. now apply Z.eqb_neq.
    - left. now apply Z.eqb_neq. }
  rewrite Hdeps. unfold sizeEffect; simpl. fold cfg.
  rewrite (array_fill_ok _ 80 Hcols), (array_fill_ok _ 50 Hrows).
  eexists; split; [reflexivity|]; simpl.
  rewrite !repeat_length, !Z2Nat.id by lia.
  repeat split; auto using Forall_repeat_eq.
Qed.

(** The Columns input set to 5 after the first row was made 120 px high and
    the first column 200 px wide. *)
Lemma dimension_change_resets_sizes_witness :
  let st := updateConfig (SetRowHeights [120; 50; 50])
              (updateConfig (SetColumnWidths [200; 80; 80]) initialState) in
  exists st',
    onColumnsChange (Some 5) st = Some st' /\
    columnWidths (config st') = [80; 80; 80; 80; 80] /\
    rowHeights (config st') = [50; 50; 50].
Proof.
  intro st.
  destruct (dimension_change_resets_sizes (SetColumns 5) st) as (st' & E & _).
  - right; simpl; lia.
  - simpl; lia.
  - simpl; lia.
  - exists st'. split; [exact E|].
    vm_compute in E. injection E as <-. split; reflexivity.
Defined.

(** C4: the code does not clamp.  The Rows input hands [parseInt] of the
    typed text to [updateConfig]; only 0 and [NaN] are replaced (by 1).  The
    text 25 stores 25 rows, and the text -3 stores -3 columns, after which
    the size effect throws. *)
Theorem dimension_input_is_not_clamped :
  (exists st', onRowsChange (Some 25) initialState = Some st' /\
               rows (config st') = 25 /\
               List.length (rowHeights (config st')) = 25%nat) /\
  columns (config (updateConfig (SetColumns (Js.or_default (Some (-3)) 1)) initialState)) = -3 /\
  onColumnsChange (Some (-3)) initialState = None.
Proof.
  split; [|split; reflexivity].
  eexists; split; [reflexivity|]. split; reflexivity.
Qed.

(** ** Stylesheet *)

Section Strings.





End Strings.


Lemma mapi_from_nth {A B : Type} (f : A -> Z -> B) (xs : list A) :
  forall (start : Z) (k : nat) (x : A),
    nth_error xs k = Some x ->
    nth_error (Js.mapi_from start f xs) k = Some (f x (start + Z.of_nat k)).
Proof.
  induction xs as [|y ys IH]; intros start k x Hk.
  - destruct k; discriminate.
  - destruct k as [|k]; simpl in *.
    + injection Hk as ->. now rewrite Z.add_0_r.
    + rewrite (IH (start + 1) k x Hk). f_equal. f_equal. lia.
Qed.

Lemma mapi_from_length {A B : Type} (f : A -> Z -> B) (xs : list A) :
  forall start, List.length (Js.mapi_from start f xs) = List.length xs.
Proof. induction xs; intro start; simpl; auto. Qed.




(** ** Markup *)








(** ** The merged-span invariant *)




Lemma style_update_counts (u : ConfigUpdate) (c : TableConfig) :
  isStyleUpdate u = true ->
  rows (assign u c) = rows c /\ columns (assign u c) = columns c.
Proof. destruct u; simpl; intro H; try discriminate; auto. Qed.








Lemma inGrid_same_counts (c1 c2 : TableConfig) (p : Coord) :
  rows c1 = rows c2 -> columns c1 = columns c2 -> inGrid c1 p = inGrid c2 p.
Proof. intros Hr Hc. unfold inGrid. now rewrite Hr, Hc. Qed.

Lemma mergeInputs_kept (st st' : State) :
  rows (config st') = rows (config st) ->
  columns (config st') = columns (config st) ->
  forallb (inGrid (config st)) (selectedCells st') = true ->
  forallb (timerOk (config st)) (timers st') = true ->
  mergeInputsInGrid st' = true.
Proof.
  intros Hr Hc Hsel Htimers. unfold mergeInputsInGrid.
  rewrite forallb_forall in Hsel. rewrite forallb_forall in Htimers.
  apply andb_true_iff; split; apply forallb_forall.
  - intros p Hp. rewrite (inGrid_same_counts _ (config st)); auto.
  - intros t Ht. specialize (Htimers t Ht). unfold timerOk in *.
    apply andb_true_iff in Htimers as [Hlen Hgrid].
    rewrite Hlen; simpl. rewrite forallb_forall in Hgrid.
    apply forallb_forall. intros p Hp.
    rewrite (inGrid_same_counts _ (config st)); auto.
Qed.

(** The condition [mergeInputsInGrid] is itself kept by
    every operation that leaves the counts alone, clicks being clicks on
    cells of the grid. *)
Lemma merge_inputs_stay_in_grid (ev : Event) (st : State) :
  isDimensionInput ev = false ->
  isReset ev = false ->
  clickInGrid ev st = true ->
  mergeInputsInGrid st = true ->
  exists st', step ev st = Some st' /\ mergeInputsInGrid st' = true.
Proof.
  intros Hdim Hreset Hclick Hinputs.
  pose proof Hinputs as Hboth.
  unfold mergeInputsInGrid in Hboth. apply andb_true_iff in Hboth as [Hsel Htimers].
  destruct ev; simpl in Hdim, Hreset; try discriminate; simpl step.
  - destruct (isStyleUpdate u) eqn:Hu; [|eauto].
    destruct (style_update_counts u (config st) Hu) as [Hr Hc].
    unfold changeConfig, runEffects, updateConfig; simpl.
    rewrite Hr, Hc, !Z.eqb_refl; simpl.
    eexists; split; [reflexivity|]. now apply (mergeInputs_kept st).
  - eexists; split; [reflexivity|]. simpl in Hclick.
    assert (Hnew : forallb (inGrid (config st)) (selectedCells st ++ [mkCoord r c]) = true).
    { rewrite forallb_app, Hsel; simpl. now rewrite Hclick. }
    unfold handleCellClick. branches; auto; apply (mergeInputs_kept st); simpl; auto.
    + apply forallb_forall. intros p Hp. apply filter_In in Hp as [Hp _].
      rewrite forallb_forall in Hsel. auto.
    + rewrite forallb_app, Htimers; simpl. unfold timerOk; simpl.
      rewrite Hnew. now match goal with H : (2 <=? _) = true |- _ => rewrite H end.
  - eexists; split; [reflexivity|].
    unfold fireTimeout. destruct (timers st) as [|t rest] eqn:Ht; auto.
    simpl in Htimers. apply andb_true_iff in Htimers as [_ Hrest].
    now apply (mergeInputs_kept st).
  - eexists; split; [reflexivity|].
    unfold mergeSelectedClick. branches; auto.
  - eexists; split; [reflexivity|]. now apply (mergeInputs_kept st).
  - eexists; split; [reflexivity|]. now apply (mergeInputs_kept st).
  - eexists; split; [reflexivity|]. now apply (mergeInputs_kept st).
  - eexists; split; [reflexivity|]. now apply (mergeInputs_kept st).
  - eexists; split; [reflexivity|]. destruct shiftKey; now apply (mergeInputs_kept st).
  - eexists; split; [reflexivity|].
    unfold onMouseMove, handleColumnResizeMove, handleRowResizeMove, handleResizeMove,
      handleIndividualCellResizeMove, handleDragMove.
    branches; auto; now apply (mergeInputs_kept st).
  - eexists; split; [reflexivity|]. unfold onMouseUp. branches; auto.
Qed.

(** ** Ids of merged cells *)

(** [created] names the id of the cell that [step] appends, and an operation
    for which it names none appends no cell. *)
Lemma created_sound (ev : Event) (st st' : State) :
  step ev st = Some st' ->
  match created ev st with
  | [] => (List.length (mergedCells st') <= List.length (mergedCells st))%nat
  | i :: _ => exists m, id m = i /\ mergedCells st' = mergedCells st ++ [m]
  end.
Proof.
  assert (Hfilter : forall (f : MergedCell -> bool) (cells : list MergedCell),
             (List.length (filter f cells) <= List.length cells)%nat).
  { intros f cells. induction cells as [|a cells IH]; simpl; [lia|].
    destruct (f a); simpl; lia. }
  destruct ev; simpl step; simpl created.
  - unfold onRowsChange, changeConfig, runEffects, sizeEffect.
    branches; intro E; inversion E; subst; simpl; lia.
  - unfold onColumnsChange, changeConfig, runEffects, sizeEffect.
    branches; intro E; inversion E; subst; simpl; lia.
  - unfold changeConfig, runEffects, sizeEffect.
    branches; intro E; inversion E; subst; simpl; lia.
  - intro E; inversion E; subst. unfold handleCellClick.
    branches; simpl; auto; lia.
  - intro E; inversion E; subst. unfold fireTimeout.
    destruct (timers st) as [|t rest]; [lia|]. simpl.
    eexists; split; [|reflexivity]; reflexivity.
  - intro E; inversion E; subst. unfold mergeSelectedClick.
    destruct (2 <=? _); [|lia]. simpl.
    eexists; split; [|reflexivity]; reflexivity.
  - intro E; inversion E; subst. simpl. apply Hfilter.
  - intro E; inversion E; subst. simpl. lia.
  - intro E; inversion E; subst. simpl. lia.
  - intro E; inversion E; subst. simpl. lia.
  - intro E; inversion E; subst. destruct shiftKey; simpl; lia.
  - intro E; inversion E; subst.
    unfold onMouseMove, handleColumnResizeMove, handleRowResizeMove, handleResizeMove,
      handleIndividualCellResizeMove, handleDragMove.
    branches; simpl; rewrite ?length_map; lia.
  - intro E; inversion E; subst. unfold onMouseUp. branches; simpl; lia.
  - unfold runEffects, sizeEffect.
    branches; intro E; inversion E; subst; simpl; lia.
Qed.







(** * Further properties of the component *)

(** ** Axis resize *)

Section ReplaceAt.

Variables (target v : Z).

Let pick (x index : Z) : Z := if index =? target then v else x.

Lemma replace_from_nth (xs : list Z) :
  forall (start : Z) (k : nat) (x : Z),
    nth_error xs k = Some x ->
    nth_error (Js.mapi_from start pick xs) k =
    Some (if start + Z.of_nat k =? target then v else x).
Proof.
  intros start k x Hk. now rewrite (mapi_from_nth pick xs start k x Hk).
Qed.

Lemma replace_from_miss (xs : list Z) :
  forall start : Z,
    (target < start \/ start + Z.of_nat (List.length xs) <= target) ->
    Js.mapi_from start pick xs = xs.
Proof.
  induction xs as [|x xs IH]; intros start H; simpl; [reflexivity|].
  unfold pick at 1.
  replace (start =? target) with false by (symmetry; apply Z.eqb_neq; simpl in H; lia).
  f_equal. apply IH. simpl in H. lia.
Qed.

Lemma fold_add_shift (xs : list Z) :
  forall a : Z, fold_left (fun sum x => sum + x) xs a = a + total xs.
Proof.
  unfold total. induction xs as [|x xs IH]; intro a; simpl; [lia|].
  rewrite (IH (a + x)), (IH x). lia.
Qed.

Lemma total_cons (x : Z) (xs : list Z) : total (x :: xs) = x + total xs.
Proof. unfold total at 1; simpl. now rewrite fold_add_shift. Qed.

Lemma replace_from_total (xs : list Z) :
  forall (start : Z) (k : nat) (x : Z),
    nth_error xs k = Some x ->
    start + Z.of_nat k = target ->
    total (Js.mapi_from start pick xs) = total xs - x + v.
Proof.
  induction xs as [|y ys IH]; intros start k x Hk Ht.
  - destruct k; discriminate.
  - simpl Js.mapi_from. rewrite !total_cons. destruct k as [|k]; simpl in Hk.
    + injection Hk as ->. unfold pick at 1.
      replace (start =? target) with true by (symmetry; apply Z.eqb_eq; lia).
      rewrite replace_from_miss by lia. lia.
    + unfold pick at 1.
      replace (start =? target) with false by (symmetry; apply Z.eqb_neq; lia).
      rewrite (IH (start + 1) k x Hk) by lia. lia.
Qed.

Lemma replace_from_firstn (xs : list Z) :
  forall (start : Z) (n : nat),
    start + Z.of_nat n <= target ->
    firstn n (Js.mapi_from start pick xs) = firstn n xs.
Proof.
  induction xs as [|y ys IH]; intros start n H; destruct n as [|n]; simpl; auto.
  unfold pick at 1.
  replace (start =? target) with false by (symmetry; apply Z.eqb_neq; lia).
  f_equal. apply IH. lia.
Qed.

End ReplaceAt.

Lemma index_Some_nth {A : Type} (xs : list A) (i : Z) (x : A) :
  Js.index xs i = Some x <-> 0 <= i /\ nth_error xs (Z.to_nat i) = Some x.
Proof.
  unfold Js.index. destruct (i <? 0) eqn:Hi; unbool; split.
  - discriminate.
  - intros [H _]; lia.
  - intro H; split; [lia | exact H].
  - intros [_ H]; exact H.
Qed.

Lemma index_None_range {A : Type} (xs : list A) (i : Z) :
  Js.index xs i = None <-> i < 0 \/ Z.of_nat (List.length xs) <= i.
Proof.
  unfold Js.index. destruct (i <? 0) eqn:Hi; unbool.
  - split; auto.
  - rewrite nth_error_None. split; [intro H; right; lia | intros [H | H]; lia].
Qed.

(** What [replaceAt] does to an array, read through [xs[k]]. *)
Lemma replaceAt_spec (i v : Z) (xs : list Z) (x : Z) :
  Js.index xs i = Some x ->
  Js.index (replaceAt i v xs) i = Some v /\
  List.length (replaceAt i v xs) = List.length xs /\
  (forall k, k <> i -> Js.index (replaceAt i v xs) k = Js.index xs k) /\
  total (replaceAt i v xs) = total xs - x + v.
Proof.
  intro Hi. apply index_Some_nth in Hi as [Hpos Hnth].
  unfold replaceAt, Js.mapi. repeat split.
  - apply index_Some_nth. split; [exact Hpos|].
    rewrite (replace_from_nth i v xs 0 _ x Hnth).
    now replace (0 + Z.of_nat (Z.to_nat i) =? i) with true
      by (symmetry; apply Z.eqb_eq; lia).
  - apply mapi_from_length.
  - intros k Hk. unfold Js.index. destruct (k <? 0) eqn:Hneg; [reflexivity|]. unbool.
    destruct (nth_error xs (Z.to_nat k)) as [y|] eqn:Hy.
    + rewrite (replace_from_nth i v xs 0 _ y Hy).
      now replace (0 + Z.of_nat (Z.to_nat k) =? i) with false
        by (symmetry; apply Z.eqb_neq; lia).
    + apply nth_error_None. rewrite mapi_from_length. now apply nth_error_None.
  - apply (replace_from_total i v xs 0 (Z.to_nat i) x Hnth). lia.
Qed.

(** A column resize step of an active session on column [i] sets the width
    of that column to [max(40, width + pointer displacement)] and changes
    nothing else: the other widths, the number of widths, the row heights,
    the counts and the merged cells stay, and the total width moves by the
    change of that one column. *)
Theorem column_resize_move_spec :
  forall (e : MouseEvent) (st : State) (i w : Z),
    isResizingColumn (dragState st) = true ->
    resizingColumnIndex (dragState st) = Some i ->
    Js.index (columnWidths (config st)) i = Some w ->
    let st' := handleColumnResizeMove e st in
    let newWidth := Z.max 40 (w + (clientX e - startX (dragState st))) in
    Js.index (columnWidths (config st')) i = Some newWidth /\
    40 <= newWidth /\
    List.length (columnWidths (config st')) = List.length (columnWidths (config st)) /\
    (forall k, k <> i ->
       Js.index (columnWidths (config st')) k = Js.index (columnWidths (config st)) k) /\
    totalWidth st' = totalWidth st + (newWidth - w) /\
    rowHeights (config st') = rowHeights (config st) /\
    rows (config st') = rows (config st) /\
    columns (config st') = columns (config st) /\
    mergedCells st' = mergedCells st.
Proof.
  intros e st i w Hflag Hidx Hw st' newWidth.
  unfold st', handleColumnResizeMove. rewrite Hflag, Hidx.
  unfold grownSize. rewrite Hw. fold newWidth. simpl.
  destruct (replaceAt_spec i newWidth _ w Hw) as (H1 & H2 & H3 & H4).
  unfold totalWidth; simpl. rewrite H4.
  repeat split; auto; unfold newWidth; lia.
Qed.

Lemma column_resize_move_spec_witness :
  let st := handleColumnResizeStart (mkMouse 100 0) 1 initialState in
  Js.index (columnWidths (config (handleColumnResizeMove (mkMouse 20 0) st))) 1 = Some 40 /\
  totalWidth (handleColumnResizeMove (mkMouse 20 0) st) = totalWidth st + (40 - 80).
Proof.
  intro st.
  destruct (column_resize_move_spec (mkMouse 20 0) st 1 80 eq_refl eq_refl eq_refl)
    as (H & _ & _ & _ & Htotal & _).
  split; [exact H | exact Htotal].
Defined.

(** A row resize step of an active session on row [i] sets the height of
    that row to [max(30, height + pointer displacement)] and changes nothing
    else: the other heights, the number of heights, the column widths, the
    counts and the merged cells stay, and the total height moves by the
    change of that one row. *)
Theorem row_resize_move_spec :
  forall (e : MouseEvent) (st : State) (i h : Z),
    isResizingRow (dragState st) = true ->
    resizingRowIndex (dragState st) = Some i ->
    Js.index (rowHeights (config st)) i = Some h ->
    let st' := handleRowResizeMove e st in
    let newHeight := Z.max 30 (h + (clientY e - startY (dragState st))) in
    Js.index (rowHeights (config st')) i = Some newHeight /\
    30 <= newHeight /\
    List.length (rowHeights (config st')) = List.length (rowHeights (config st)) /\
    (forall k, k <> i ->
       Js.index (rowHeights (config st')) k = Js.index (rowHeights (config st)) k) /\
    totalHeight st' = totalHeight st + (newHeight - h) /\
    columnWidths (config st') = columnWidths (config st) /\
    rows (config st') = rows (config st) /\
    columns (config st') = columns (config st) /\
    mergedCells st' = mergedCells st.
Proof.
  intros e st i h Hflag Hidx Hh st' newHeight.
  unfold st', handleRowResizeMove. rewrite Hflag, Hidx.
  unfold grownSize. rewrite Hh. fold newHeight. simpl.
  destruct (replaceAt_spec i newHeight _ h Hh) as (H1 & H2 & H3 & H4).
  unfold totalHeight; simpl. rewrite H4.
  repeat split; auto; unfold newHeight; lia.
Qed.

Lemma row_resize_move_spec_witness :
  let st := handleRowResizeStart (mkMouse 0 100) 2 initialState in
  Js.index (rowHeights (config (handleRowResizeMove (mkMouse 0 130) st))) 2 = Some 80.
Proof.
  intro st.
  destruct (row_resize_move_spec (mkMouse 0 130) st 2 50 eq_refl eq_refl eq_refl)
    as (H & _).
  exact H.
Defined.

(** A resize step on a free cell writes the width of the cell's column and
    the height of the cell's row (minimum 40 and 30) and nothing else, so
    every cell of that column and of that row is resized with it. *)
Theorem individual_cell_resize_couples_axes :
  forall (e : MouseEvent) (st : State) (rowIndex colIndex w h : Z),
    isResizingIndividualCell (dragState st) = true ->
    resizingCellRow (dragState st) = Some rowIndex ->
    resizingCellCol (dragState st) = Some colIndex ->
    Js.index (columnWidths (config st)) colIndex = Some w ->
    Js.index (rowHeights (config st)) rowIndex = Some h ->
    let st' := handleIndividualCellResizeMove e st in
    Js.index (columnWidths (config st')) colIndex =
      Some (Z.max 40 (w + (clientX e - startX (dragState st)))) /\
    Js.index (rowHeights (config st')) rowIndex =
      Some (Z.max 30 (h + (clientY e - startY (dragState st)))) /\
    (forall k, k <> colIndex ->
       Js.index (columnWidths (config st')) k = Js.index (columnWidths (config st)) k) /\
    (forall k, k <> rowIndex ->
       Js.index (rowHeights (config st')) k = Js.index (rowHeights (config st)) k) /\
    List.length (columnWidths (config st')) = List.length (columnWidths (config st)) /\
    List.length (rowHeights (config st')) = List.length (rowHeights (config st)) /\
    mergedCells st' = mergedCells st /\ selectedCells st' = selectedCells st.
Proof.
  intros e st rowIndex colIndex w h Hflag Hrow Hcol Hw Hh st'.
  unfold st', handleIndividualCellResizeMove. rewrite Hflag, Hrow, Hcol.
  unfold grownSize. rewrite Hw, Hh. simpl.
  destruct (replaceAt_spec colIndex (Z.max 40 (w + (clientX e - startX (dragState st)))) _ w Hw)
    as (C1 & C2 & C3 & _).
  destruct (replaceAt_spec rowIndex (Z.max 30 (h + (clientY e - startY (dragState st)))) _ h Hh)
    as (R1 & R2 & R3 & _).
  repeat split; auto.
Qed.

Lemma individual_cell_resize_couples_axes_witness :
  let st := handleIndividualCellResizeStart (mkMouse 10 10) 2 0 initialState in
  let st' := handleIndividualCellResizeMove (mkMouse 40 0) st in
  Js.index (columnWidths (config st')) 0 = Some 110 /\
  Js.index (rowHeights (config st')) 2 = Some 40.
Proof.
  intros st st'.
  destruct (individual_cell_resize_couples_axes (mkMouse 40 0) st 2 0 80 50
              eq_refl eq_refl eq_refl eq_refl eq_refl) as (Hc & Hr & _).
  split; [exact Hc | exact Hr].
Defined.

(** A resize session whose column (row) index is not an index of the sizing
    array leaves the array as it is. *)
Theorem axis_resize_out_of_range :
  forall (e : MouseEvent) (st : State) (i : Z),
    (resizingColumnIndex (dragState st) = Some i ->
     Js.index (columnWidths (config st)) i = None ->
     columnWidths (config (handleColumnResizeMove e st)) = columnWidths (config st)) /\
    (resizingRowIndex (dragState st) = Some i ->
     Js.index (rowHeights (config st)) i = None ->
     rowHeights (config (handleRowResizeMove e st)) = rowHeights (config st)).
Proof.
  intros e st i. split; intros Hidx Hnone.
  - unfold handleColumnResizeMove. rewrite Hidx.
    destruct (isResizingColumn (dragState st)); [|reflexivity]. simpl.
    apply index_None_range in Hnone.
    unfold replaceAt, Js.mapi. apply replace_from_miss. lia.
  - unfold handleRowResizeMove. rewrite Hidx.
    destruct (isResizingRow (dragState st)); [|reflexivity]. simpl.
    apply index_None_range in Hnone.
    unfold replaceAt, Js.mapi. apply replace_from_miss. lia.
Qed.

Lemma axis_resize_out_of_range_witness :
  let st := handleColumnResizeStart (mkMouse 0 0) 3 initialState in
  columnWidths (config (handleColumnResizeMove (mkMouse 500 0) st)) = [80; 80; 80].
Proof.
  intro st.
  exact (proj1 (axis_resize_out_of_range (mkMouse 500 0) st 3) eq_refl eq_refl).
Defined.

Lemma firstn_mapi_from {A B : Type} (f : A -> Z -> B) (xs : list A) :
  forall (start : Z) (n : nat),
    firstn n (Js.mapi_from start f xs) = Js.mapi_from start f (firstn n xs).
Proof.
  induction xs as [|x xs IH]; intros start n; destruct n; simpl; auto.
  now rewrite IH.
Qed.

Lemma nth_error_firstn_lt {A : Type} (xs : list A) :
  forall (n k : nat), (k < n)%nat -> nth_error (firstn n xs) k = nth_error xs k.
Proof.
  induction xs as [|x xs IH]; intros n k H.
  - now rewrite firstn_nil.
  - destruct n; [lia|]. destruct k; simpl; auto. apply IH. lia.
Qed.

(** Dragging the column handle number [i] resizes column [i + 1], the column
    on its right: the handle itself and the handles on its left stay where
    they are, the handles further right move by the change of width. *)
Theorem column_handle_resizes_right_column :
  forall (e0 e : MouseEvent) (st : State) (i w : Z),
    0 <= i ->
    Js.index (columnWidths (config st)) (i + 1) = Some w ->
    let st' := handleColumnResizeMove e (columnHandleDown e0 i st) in
    let newWidth := Z.max 40 (w + (clientX e - clientX e0)) in
    Js.index (columnWidths (config st')) (i + 1) = Some newWidth /\
    (forall k, k <> i + 1 ->
       Js.index (columnWidths (config st')) k = Js.index (columnWidths (config st)) k) /\
    (forall k, 0 <= k <= i -> columnHandleLeft st' k = columnHandleLeft st k) /\
    (forall k, i < k -> columnHandleLeft st' k = columnHandleLeft st k + (newWidth - w)).
Proof.
  intros e0 e st i w Hi Hw st' newWidth.
  assert (Hws : columnWidths (config st') = replaceAt (i + 1) newWidth (columnWidths (config st))).
  { unfold st', handleColumnResizeMove, columnHandleDown; simpl.
    unfold grownSize. now rewrite Hw. }
  destruct (replaceAt_spec (i + 1) newWidth _ w Hw) as (H1 & _ & H3 & _).
  split; [now rewrite Hws|]. split; [intros k Hk; rewrite Hws; now apply H3|].
  assert (Hgap : gap (config st') = gap (config st)).
  { unfold st', handleColumnResizeMove, columnHandleDown; simpl. reflexivity. }
  split.
  - intros k Hk. unfold columnHandleLeft. rewrite Hws, Hgap.
    unfold replaceAt, Js.mapi. rewrite replace_from_firstn by lia. reflexivity.
  - intros k Hk. unfold columnHandleLeft. rewrite Hws, Hgap.
    unfold replaceAt, Js.mapi. rewrite firstn_mapi_from.
    apply index_Some_nth in Hw as [_ Hnth].
    rewrite (replace_from_total (i + 1) newWidth _ 0 (Z.to_nat (i + 1)) w).
    + lia.
    + rewrite nth_error_firstn_lt by lia. exact Hnth.
    + lia.
Qed.

Lemma column_handle_resizes_right_column_witness :
  let st' := handleColumnResizeMove (mkMouse 130 0)
               (columnHandleDown (mkMouse 100 0) 0 initialState) in
  columnWidths (config st') = [80; 110; 80] /\
  columnHandleLeft st' 0 = columnHandleLeft initialState 0 /\
  columnHandleLeft st' 1 = columnHandleLeft initialState 1 + 30.
Proof.
  intro st'.
  destruct (column_handle_resizes_right_column (mkMouse 100 0) (mkMouse 130 0)
              initialState 0 80) as (_ & _ & Hleft & Hright).
  - lia.
  - reflexivity.
  - split; [reflexivity|]. split; [apply Hleft; lia | apply Hright; lia].
Defined.

(** ** Invariants of the state *)









(** ** Selection *)

Lemma sameCoord_iff (r c : Z) (p : Coord) :
  sameCoord r c p = true <-> p = mkCoord r c.
Proof.
  unfold sameCoord. destruct p as [pr pc]; simpl. split.
  - intro H. unbool. congruence.
  - intro E; injection E as -> ->. now rewrite !Z.eqb_refl.
Qed.

Lemma selected_iff (r c : Z) (sel : list Coord) :
  existsb (sameCoord r c) sel = true <-> In (mkCoord r c) sel.
Proof.
  rewrite existsb_exists. split.
  - intros (p & Hp & Hs). apply sameCoord_iff in Hs. now subst.
  - intro H. exists (mkCoord r c). split; [exact H | now apply sameCoord_iff].
Qed.

Lemma step_keeps_selection_NoDup (ev : Event) (st st' : State) :
  NoDup (selectedCells st) ->
  step ev st = Some st' ->
  NoDup (selectedCells st').
Proof.
  intro H. destruct ev; simpl step.
  - unfold onRowsChange, changeConfig, runEffects, sizeEffect.
    branches; intro E; inversion E; subst; exact H.
  - unfold onColumnsChange, changeConfig, runEffects, sizeEffect.
    branches; intro E; inversion E; subst; exact H.
  - unfold changeConfig, runEffects, sizeEffect.
    branches; intro E; inversion E; subst; exact H.
  - intro E; injection E as <-. unfold handleCellClick.
    destruct (clickBlocked (dragState st)); [exact H|].
    destruct (isCellMerged st r c); [constructor|].
    destruct (existsb (sameCoord r c) (selectedCells st)) eqn:Hsel.
    + simpl. now apply NoDup_filter.
    + assert (Hnew : NoDup (selectedCells st ++ [mkCoord r c])).
      { apply NoDup_app. repeat split; auto.
        - constructor; [intros [] | constructor].
        - intros p Hp [<- | []]. apply selected_iff in Hp. congruence. }
      destruct (2 <=? _); exact Hnew.
  - intro E; injection E as <-. unfold fireTimeout.
    destruct (timers st); [exact H | constructor].
  - intro E; injection E as <-. unfold mergeSelectedClick.
    destruct (2 <=? _); [constructor | exact H].
  - intro E; injection E as <-. exact H.
  - intro E; injection E as <-. exact H.
  - intro E; injection E as <-. exact H.
  - intro E; injection E as <-. exact H.
  - intro E; injection E as <-. destruct shiftKey; exact H.
  - intro E; injection E as <-.
    unfold onMouseMove, handleColumnResizeMove, handleRowResizeMove, handleResizeMove,
      handleIndividualCellResizeMove, handleDragMove.
    branches; exact H.
  - intro E; injection E as <-. unfold onMouseUp. branches; exact H.
  - unfold runEffects, sizeEffect.
    branches; intro E; inversion E; subst; constructor.
Qed.

(** The selection never holds a coordinate twice: along every sequence of
    operations a duplicate-free selection stays duplicate-free. *)
Theorem selection_has_no_duplicates :
  forall (evs : list Event) (st0 st : State),
    NoDup (selectedCells st0) ->
    run evs st0 = Some st ->
    NoDup (selectedCells st).
Proof.
  induction evs as [|ev evs IH]; intros st0 st H0; simpl.
  - intro E; injection E as <-. exact H0.
  - destruct (step ev st0) as [st1|] eqn:Hstep; [|discriminate].
    apply IH. apply (step_keeps_selection_NoDup ev st0 st1 H0 Hstep).
Qed.

Lemma selection_has_no_duplicates_witness :
  NoDup (selectedCells (stateAfter [CellClick 1 1; CellClick 1 1; CellClick 1 1])).
Proof.
  apply (selection_has_no_duplicates [CellClick 1 1; CellClick 1 1; CellClick 1 1]
           initialState).
  - constructor.
  - reflexivity.
Defined.

(** A click on a free cell, with no move or resize in progress, toggles the
    cell in the selection: it is selected afterwards exactly when it was not
    before; the selection state of every other coordinate, the merged cells,
    the configuration and the id counter stay as they were. *)
Theorem click_toggles_selection :
  forall (st : State) (r c : Z),
    clickBlocked (dragState st) = false ->
    isCellMerged st r c = false ->
    let st' := handleCellClick r c st in
    existsb (sameCoord r c) (selectedCells st') =
      negb (existsb (sameCoord r c) (selectedCells st)) /\
    (forall r' c', (r', c') <> (r, c) ->
       existsb (sameCoord r' c') (selectedCells st') =
       existsb (sameCoord r' c') (selectedCells st)) /\
    mergedCells st' = mergedCells st /\
    config st' = config st /\
    nextCellId st' = nextCellId st.
Proof.
  intros st r c Hblock Hfree st'.
  unfold st', handleCellClick. rewrite Hblock, Hfree.
  destruct (existsb (sameCoord r c) (selectedCells st)) eqn:Hsel.
  - simpl. repeat split.
    + apply not_true_iff_false. intro H. apply existsb_exists in H as (p & Hp & Hs).
      apply filter_In in Hp as [_ Hp]. rewrite Hs in Hp. discriminate.
    + intros r' c' Hne.
      destruct (existsb (sameCoord r' c') (selectedCells st)) eqn:Hother.
      * apply selected_iff. apply selected_iff in Hother.
        apply filter_In. split; [exact Hother|]. simpl.
        apply negb_true_iff, not_true_iff_false.
        intro H. unfold sameCoord in H; simpl in H. unbool. congruence.
      * apply not_true_iff_false. intro H. apply selected_iff in H.
        apply filter_In in H as [H _]. apply selected_iff in H. congruence.
  - assert (Hsels : forall r' c',
               existsb (sameCoord r' c') (selectedCells st ++ [mkCoord r c]) =
               existsb (sameCoord r' c') (selectedCells st) || sameCoord r' c' (mkCoord r c)).
    { intros. rewrite existsb_app; simpl. now rewrite orb_false_r. }
    destruct (2 <=? _); simpl; rewrite Hsels, Hsel; simpl;
      (repeat split; [unfold sameCoord; simpl; now rewrite !Z.eqb_refl|]);
      intros r' c' Hne; rewrite Hsels;
      replace (sameCoord r' c' (mkCoord r c)) with false; try apply orb_false_r;
      symmetry; apply not_true_iff_false; intro Hs;
      unfold sameCoord in Hs; simpl in Hs; unbool; congruence.
Qed.

Lemma click_toggles_selection_witness :
  let st := handleCellClick 2 2 initialState in
  existsb (sameCoord 2 2) (selectedCells (handleCellClick 2 2 st)) = false /\
  existsb (sameCoord 0 1) (selectedCells (handleCellClick 0 1 st)) = true.
Proof.
  intro st. split.
  - exact (proj1 (click_toggles_selection st 2 2 eq_refl eq_refl)).
  - exact (proj1 (click_toggles_selection st 0 1 eq_refl eq_refl)).
Defined.

(** Deselecting does not cancel a scheduled merge.  With no merge pending, a
    click that brings the selection to two or more cells followed by a
    second click on the same cell takes the cell out of the selection again,
    but the timeout still merges the selection it captured, the deselected
    cell included, and then empties the selection. *)
Theorem deselect_keeps_scheduled_merge :
  forall (st : State) (r c : Z),
    clickBlocked (dragState st) = false ->
    isCellMerged st r c = false ->
    existsb (sameCoord r c) (selectedCells st) = false ->
    selectedCells st <> [] ->
    timers st = [] ->
    let st2 := handleCellClick r c (handleCellClick r c st) in
    let m := newMergedCell (selectedCells st ++ [mkCoord r c]) (nextCellId st)
                           (fillSampleText (config st)) in
    selectedCells st2 = selectedCells st /\
    mergedCells st2 = mergedCells st /\
    mergedCells (fireTimeout st2) = mergedCells st ++ [m] /\
    covers r c m = true /\
    selectedCells (fireTimeout st2) = [] /\
    timers (fireTimeout st2) = [].
Proof.
  intros st r c Hblock Hfree Hnew Hsel Htimers st2 m.
  assert (Hlen : (2 <=? Z.of_nat (List.length (selectedCells st ++ [mkCoord r c]))) = true).
  { apply Z.leb_le. rewrite length_app; simpl.
    destruct (selectedCells st); [congruence | simpl; lia]. }
  assert (Hkeep : filter (fun cell => negb (sameCoord r c cell)) (selectedCells st) =
                  selectedCells st).
  { apply forallb_filter_id, forallb_forall. intros p Hp.
    apply negb_true_iff, not_true_iff_false. intro Hs.
    apply sameCoord_iff in Hs. subst. apply selected_iff in Hp. congruence. }
  assert (Hst2 : st2 = setTimers (fun ts => ts ++ [mkTimer (selectedCells st ++ [mkCoord r c])
                                     (nextCellId st) (fillSampleText (config st))]) st).
  { unfold st2. unfold handleCellClick at 2. rewrite Hblock, Hfree, Hnew, Hlen.
    unfold handleCellClick; simpl. rewrite Hblock.
    change (isCellMerged _ r c) with (isCellMerged st r c). rewrite Hfree.
    rewrite existsb_app; simpl.
    replace (sameCoord r c (mkCoord r c)) with true
      by (symmetry; now apply sameCoord_iff).
    rewrite orb_true_r; simpl.
    unfold setSelectedCells, setTimers; simpl.
    rewrite filter_app, Hkeep; simpl.
    replace (sameCoord r c (mkCoord r c)) with true
      by (symmetry; now apply sameCoord_iff).
    simpl. now rewrite app_nil_r. }
  rewrite Hst2. unfold fireTimeout; simpl. rewrite Htimers; simpl.
  repeat split.
  assert (Hne : selectedCells st ++ [mkCoord r c] <> [])
    by (destruct (selectedCells st); simpl; congruence).
  destruct (newMergedCell_box _ (nextCellId st) (fillSampleText (config st)) Hne) as (Hcov & _).
  apply (Hcov (mkCoord r c)). apply in_app_iff; right; now left.
Qed.

Lemma deselect_keeps_scheduled_merge_witness :
  let st2 := stateAfter [CellClick 0 0; CellClick 2 2; CellClick 2 2] in
  selectedCells st2 = [mkCoord 0 0] /\
  mergedCells (fireTimeout st2) = [mkMerged 1 0 3 0 3 EmptyString].
Proof.
  intro st2.
  destruct (deselect_keeps_scheduled_merge (handleCellClick 0 0 initialState) 2 2
              eq_refl eq_refl eq_refl) as (Hsel & _ & Hmerged & _).
  - simpl; discriminate.
  - reflexivity.
  - split; [exact Hsel | exact Hmerged].
Defined.

(** ** Removal and creation of merged cells *)

(** The remove button of a merged cell deletes the cells that carry its id
    and only those; when the id occurs once, exactly that cell goes and the
    others keep their order.  Unlike a click on the cell, it leaves the
    selection as it is. *)
Theorem remove_button_removes_by_id :
  forall (st : State) (before after : list MergedCell) (m : MergedCell),
    mergedCells st = before ++ m :: after ->
    (forall cell, In cell (before ++ after) -> id cell <> id m) ->
    let st' := removeMergedClick (id m) st in
    mergedCells st' = before ++ after /\
    selectedCells st' = selectedCells st /\
    nextCellId st' = nextCellId st /\
    config st' = config st /\
    timers st' = timers st.
Proof.
  intros st before after m Hsplit Hothers st'.
  repeat split. unfold st', removeMergedClick; simpl.
  rewrite Hsplit, filter_app; simpl. rewrite Z.eqb_refl; simpl.
  assert (Hkeep : forall cells, (forall cell, In cell cells -> id cell <> id m) ->
             filter (fun cell => negb (id cell =? id m)) cells = cells).
  { intros cells H. apply forallb_filter_id, forallb_forall. intros cell Hin.
    apply negb_true_iff, Z.eqb_neq. now apply H. }
  rewrite !Hkeep; auto.
  - intros cell Hin. apply Hothers, in_app_iff; auto.
  - intros cell Hin. apply Hothers, in_app_iff; auto.
Qed.

(** Of the two overlapping cells of [overlapRun] the button of cell 1
    removes cell 1 only (a click on (1,1) removes both). *)
Lemma remove_button_removes_by_id_witness :
  mergedCells (removeMergedClick 1 (stateAfter overlapRun)) = [mkMerged 2 1 3 1 3 EmptyString].
Proof.
  refine (proj1 (remove_button_removes_by_id (stateAfter overlapRun) []
                   [mkMerged 2 1 3 1 3 EmptyString] (mkMerged 1 0 2 0 2 EmptyString) eq_refl _)).
  intros cell [<- | []]. simpl. discriminate.
Defined.

(** The merge button next to a scheduled merge creates the cell twice.  The
    button is rendered only while two or more cells are selected, that is
    while the timeout of the last click is pending; pressing it creates the
    merged cell at once, and the timeout then appends the same cell again,
    with the id it captured, while the counter has moved on by two. *)
Theorem merge_button_duplicates_scheduled_merge :
  forall (st : State) (r c : Z),
    clickBlocked (dragState st) = false ->
    isCellMerged st r c = false ->
    existsb (sameCoord r c) (selectedCells st) = false ->
    selectedCells st <> [] ->
    timers st = [] ->
    let m := newMergedCell (selectedCells st ++ [mkCoord r c]) (nextCellId st)
                           (fillSampleText (config st)) in
    let st' := fireTimeout (mergeSelectedClick (handleCellClick r c st)) in
    mergedCells st' = mergedCells st ++ [m; m] /\
    nextCellId st' = nextCellId st + 2 /\
    selectedCells st' = [] /\
    timers st' = [].
Proof.
  intros st r c Hblock Hfree Hnew Hsel Htimers m st'.
  assert (Hlen : (2 <=? Z.of_nat (List.length (selectedCells st ++ [mkCoord r c]))) = true).
  { apply Z.leb_le. rewrite length_app; simpl.
    destruct (selectedCells st); [congruence | simpl; lia]. }
  unfold st'. unfold handleCellClick. rewrite Hblock, Hfree, Hnew, Hlen.
  unfold mergeSelectedClick; simpl. rewrite Hlen.
  unfold fireTimeout; simpl. rewrite Htimers; simpl.
  fold m. rewrite <- app_assoc; simpl.
  repeat split. lia.
Qed.

Lemma merge_button_duplicates_scheduled_merge_witness :
  mergedCells (stateAfter [CellClick 0 0; CellClick 0 1; MergeButton; Timeout]) =
  [mkMerged 1 0 1 0 2 EmptyString; mkMerged 1 0 1 0 2 EmptyString].
Proof.
  refine (proj1 (merge_button_duplicates_scheduled_merge
                   (handleCellClick 0 0 initialState) 0 1 eq_refl eq_refl eq_refl _ eq_refl)).
  simpl; discriminate.
Defined.










(** ** Markup and preview *)




Lemma cellMarkup_frame (st1 st2 : State) (i j : Z) :
  borderStyle (config st1) = borderStyle (config st2) ->
  borderColor (config st1) = borderColor (config st2) ->
  cellPadding (config st1) = cellPadding (config st2) ->
  cellBackgroundColor (config st1) = cellBackgroundColor (config st2) ->
  borderRadius (config st1) = borderRadius (config st2) ->
  fillSampleText (config st1) = fillSampleText (config st2) ->
  mergedCells st1 = mergedCells st2 ->
  selectedCells st1 = selectedCells st2 ->
  cellMarkup st1 i j = cellMarkup st2 i j.
Proof.
  intros Hstyle Hcolor Hpad Hbg Hrad Hfill Hm Hs.
  unfold cellMarkup, getMergedCell, isCellMerged, mergedTd, regularTd, tdOpen, borderValue.
  now rewrite Hstyle, Hcolor, Hpad, Hbg, Hrad, Hfill, Hm, Hs.
Qed.

(** The markup is a function of the counts, the border, padding, background,
    radius and sample-text settings, the merged cells and the selection:
    two states that agree on these have the same markup, whatever their gap,
    sizing arrays, id counter, drag state and scheduled merges. *)
Theorem markup_ignores_gap_and_sizes :
  forall (st1 st2 : State),
    rows (config st1) = rows (config st2) ->
    columns (config st1) = columns (config st2) ->
    borderStyle (config st1) = borderStyle (config st2) ->
    borderColor (config st1) = borderColor (config st2) ->
    cellPadding (config st1) = cellPadding (config st2) ->
    cellBackgroundColor (config st1) = cellBackgroundColor (config st2) ->
    borderRadius (config st1) = borderRadius (config st2) ->
    fillSampleText (config st1) = fillSampleText (config st2) ->
    mergedCells st1 = mergedCells st2 ->
    selectedCells st1 = selectedCells st2 ->
    generateTableHTML st1 = generateTableHTML st2.
Proof.
  intros st1 st2 Hrows Hcols Hstyle Hcolor Hpad Hbg Hrad Hfill Hm Hs.
  assert (HrowsEq : tableRows st1 = tableRows st2).
  { unfold tableRows, rowCells. rewrite Hrows, Hcols.
    apply map_ext. intro i. apply flat_map_ext. intro j.
    now apply cellMarkup_frame. }
  unfold generateTableHTML. now rewrite HrowsEq.
Qed.

(** The initial state against a state with another gap, resized first
    column and an open resize session. *)
Lemma markup_ignores_gap_and_sizes_witness :
  generateTableHTML initialState =
  generateTableHTML
    (stateAfter [StyleInput (SetGap 30); CellHandleDown (mkMouse 0 0) 0 0;
                 MouseMove (mkMouse 60 60) 0 0 0]).
Proof.
  apply markup_ignores_gap_and_sizes; reflexivity.
Defined.

(** The preview and the markup show the same cells: at every coordinate the
    preview renders a cell exactly when the markup writes one, with the same
    text, so every row of the preview has as many cells as the row group of
    the markup (in every state, overlapping cells included). *)
Theorem preview_shows_the_cells_of_the_markup :
  forall (st : State),
    (forall i j,
        match previewCell st i j with
        | None => cellMarkup st i j = []
        | Some d =>
            match getMergedCell st i j with
            | Some m =>
                cellMarkup st i j = [mergedTd (config st) m] /\
                previewContent d = content m
            | None =>
                cellMarkup st i j =
                  [regularTd (config st) (existsb (sameCoord i j) (selectedCells st)) i j] /\
                previewContent d =
                  (if fillSampleText (config st)
                   then "Cell " +++ Js.num (i + 1) +++ "-" +++ Js.num (j + 1)
                   else EmptyString)
            end
        end) /\
    List.length (previewRows st) = List.length (tableRows st) /\
    (forall i, List.length (previewRow st i) = List.length (rowCells st i)).
Proof.
  intro st.
  assert (Hcell : forall i j,
             List.length (match previewCell st i j with Some d => [d] | None => [] end) =
             List.length (cellMarkup st i j)).
  { intros i j. unfold previewCell, cellMarkup.
    destruct (getMergedCell st i j) as [m|]; simpl.
    - destruct ((i =? rowStart m) && (j =? colStart m)); [reflexivity|].
      destruct (negb (isCellMerged st i j)); reflexivity.
    - destruct (negb (isCellMerged st i j)); reflexivity. }
  split; [|split].
  - intros i j. unfold previewCell, cellMarkup, isCellMerged, getMergedCell.
    destruct (find (covers i j) (mergedCells st)) as [m|] eqn:Hfind; simpl.
    + destruct ((i =? rowStart m) && (j =? colStart m)); [split; reflexivity|].
      apply find_some in Hfind as [Hin Hcov].
      replace (existsb (covers i j) (mergedCells st)) with true; [reflexivity|].
      symmetry. apply existsb_exists. eauto.
    + replace (existsb (covers i j) (mergedCells st)) with false; [split; reflexivity|].
      symmetry. apply not_true_iff_false. intro H.
      apply existsb_exists in H as (m & Hin & Hcov).
      pose proof (find_none _ _ Hfind m Hin). congruence.
  - unfold previewRows, tableRows. now rewrite !length_map.
  - intro i. unfold previewRow, rowCells.
    induction (Js.upto (columns (config st))) as [|j js IH]; [reflexivity|].
    simpl. rewrite !length_app, Hcell, IH. reflexivity.
Qed.

(** ** Reset and pointer release *)

(** Reset always succeeds.  It restores the default configuration, empties
    the registry and the selection and sets the counter to 1, so both
    generated texts are those of the initial state; it keeps the drag state
    and does not cancel a scheduled merge. *)
Theorem reset_restores_initial_outputs :
  forall (st : State),
    exists st',
      step Reset st = Some st' /\
      config st' = defaultConfig /\
      mergedCells st' = [] /\ selectedCells st' = [] /\ nextCellId st' = 1 /\
      generateTableHTML st' = generateTableHTML initialState /\
      generateCSS st' = generateCSS initialState /\
      dragState st' = dragState st /\
      timers st' = timers st.
Proof.
  intro st. simpl step. unfold runEffects.
  match goal with |- context [if ?b then _ else _] => destruct b end.
  - eexists. split; [reflexivity|]. repeat split.
  - unfold sizeEffect; simpl. eexists. split; [reflexivity|]. repeat split.
Qed.

(** After a pointer release no gesture is in progress: clicks are handled
    again, further pointer moves change nothing, and the release itself
    changed neither the configuration nor the merged cells. *)
Theorem pointer_release_ends_gesture :
  forall (st : State) (e : MouseEvent) (now colDelta rowDelta : Z),
    let st' := onMouseUp st in
    noGesture (dragState st') = true /\
    clickBlocked (dragState st') = false /\
    onMouseMove e now colDelta rowDelta st' = st' /\
    config st' = config st /\ mergedCells st' = mergedCells st /\
    selectedCells st' = selectedCells st.
Proof.
  intros st e now colDelta rowDelta st'. unfold st', onMouseUp.
  destruct (isDragging (dragState st) || isResizing (dragState st)
            || isResizingColumn (dragState st) || isResizingRow (dragState st)
            || isResizingIndividualCell (dragState st)) eqn:Hany.
  - repeat split.
  - unfold noGesture, clickBlocked, onMouseMove. rewrite Hany.
    repeat split.
    destruct (isDragging (dragState st)), (isResizing (dragState st)),
      (isResizingColumn (dragState st)), (isResizingRow (dragState st));
      simpl in *; congruence.
Qed.

(** ** Row and column inputs *)

(** Typing the count that the table already has changes nothing: the size
    effect does not run and the manual sizes are kept. *)
Theorem same_count_keeps_sizes :
  forall (st : State) (v : Z),
    v <> 0 ->
    (v = rows (config st) -> onRowsChange (Some v) st = Some st) /\
    (v = columns (config st) -> onColumnsChange (Some v) st = Some st).
Proof.
  intros st v Hv.
  assert (Hd : Js.or_default (Some v) 1 = v) by (destruct v; [congruence | reflexivity ..]).
  split; intro E.
  - unfold onRowsChange, changeConfig, runEffects, updateConfig. rewrite Hd.
    simpl. rewrite !Z.eqb_refl, E, Z.eqb_refl. simpl.
    destruct st as [cfg ms n sel d l ts]; destruct cfg; reflexivity.
  - unfold onColumnsChange, changeConfig, runEffects, updateConfig. rewrite Hd.
    simpl. rewrite !Z.eqb_refl, E, Z.eqb_refl. simpl.
    destruct st as [cfg ms n sel d l ts]; destruct cfg; reflexivity.
Qed.

Lemma same_count_keeps_sizes_witness :
  let st := stateAfter [ColumnHandleDown (mkMouse 0 0) 1; MouseMove (mkMouse 25 0) 0 0 0;
                        MouseUp] in
  onColumnsChange (Some 3) st = Some st /\ columnWidths (config st) = [80; 105; 80].
Proof.
  intro st. split; [|reflexivity].
  refine (proj2 (same_count_keeps_sizes st 3 _) eq_refl). discriminate.
Defined.

(** A count that is not an array length (negative, or 2^32 and above) makes
    the size effect throw, whatever the state: the operation has no
    successor state. *)
Theorem invalid_count_throws :
  forall (st : State) (v : Z),
    v < 0 \/ 2 ^ 32 <= v ->
    (v <> rows (config st) -> onRowsChange (Some v) st = None) /\
    (v <> columns (config st) -> onColumnsChange (Some v) st = None).
Proof.
  intros st v Hv.
  assert (Hd : Js.or_default (Some v) 1 = v) by (destruct v; [lia | reflexivity ..]).
  assert (Hfill : forall x, Js.array_fill v x = None).
  { intro x. unfold Js.array_fill.
    destruct Hv as [H | H].
    - now replace (0 <=? v) with false by (symmetry; apply Z.leb_gt; lia).
    - replace (v <? 2 ^ 32) with false by (symmetry; apply Z.ltb_ge; lia).
      now rewrite andb_false_r. }
  split; intro Hne.
  - unfold onRowsChange, changeConfig, runEffects, updateConfig. rewrite Hd. simpl.
    replace (v =? rows (config st)) with false by (symmetry; now apply Z.eqb_neq).
    rewrite andb_false_r. unfold sizeEffect; simpl. rewrite Hfill.
    now destruct (Js.array_fill _ 80).
  - unfold onColumnsChange, changeConfig, runEffects, updateConfig. rewrite Hd. simpl.
    replace (v =? columns (config st)) with false by (symmetry; now apply Z.eqb_neq).
    simpl. unfold sizeEffect; simpl. now rewrite Hfill.
Qed.

Lemma invalid_count_throws_witness :
  onRowsChange (Some (-1)) initialState = None /\
  onColumnsChange (Some 4294967296) initialState = None.
Proof.
  split.
  - refine (proj1 (invalid_count_throws initialState (-1) _) _); [lia | discriminate].
  - refine (proj2 (invalid_count_throws initialState 4294967296 _) _);
      [right; simpl; lia | discriminate].
Defined.

(** ** The earlier version of the component *)

(** In the earlier version the click that brings the selection to two
    entries creates the merged cell at once (no timeout is scheduled): the
    cell takes the current counter as id, covers every selected coordinate
    and the clicked one, the counter grows by one and the selection is
    emptied. *)
Theorem legacy_click_merges_at_once :
  forall (st : State) (r c : Z),
    isDragging (dragState st) || isResizing (dragState st) = false ->
    isCellMerged st r c = false ->
    selectedCells st <> [] ->
    let st' := Legacy.handleCellClick r c st in
    exists m,
      mergedCells st' = mergedCells st ++ [m] /\
      id m = nextCellId st /\
      nextCellId st' = nextCellId st + 1 /\
      (forall p, In p (selectedCells st ++ [mkCoord r c]) ->
                 covers (row p) (col p) m = true) /\
      selectedCells st' = [] /\
      timers st' = timers st.
Proof.
  intros st r c Hblock Hfree Hsel st'.
  assert (Hlen : (2 <=? Z.of_nat (List.length (selectedCells st ++ [mkCoord r c]))) = true).
  { apply Z.leb_le. rewrite length_app; simpl.
    destruct (selectedCells st); [congruence | simpl; lia]. }
  unfold st', Legacy.handleCellClick. rewrite Hblock, Hfree, Hlen.
  eexists. split; [reflexivity|]. simpl.
  repeat split.
  intros p Hp.
  assert (Hne : selectedCells st ++ [mkCoord r c] <> [])
    by (destruct (selectedCells st); simpl; congruence).
  destruct (newMergedCell_box _ 0 false Hne) as (Hcov & _).
  exact (Hcov p Hp).
Qed.

Lemma legacy_click_merges_at_once_witness :
  exists m,
    mergedCells (Legacy.handleCellClick 1 2 (Legacy.handleCellClick 0 0 initialState)) = [m] /\
    id m = 1 /\ covers 0 0 m = true /\ covers 1 2 m = true.
Proof.
  destruct (legacy_click_merges_at_once (Legacy.handleCellClick 0 0 initialState) 1 2
              eq_refl eq_refl) as (m & Hm & Hid & _ & Hcov & _).
  - simpl; discriminate.
  - exists m. split; [exact Hm|]. split; [exact Hid|]. split.
    + apply (Hcov (mkCoord 0 0)). left; reflexivity.
    + apply (Hcov (mkCoord 1 2)). right; left; reflexivity.
Defined.

(** The earlier version does not toggle: with an empty selection, two clicks
    on the same free cell merge that cell with itself into a merged cell of
    one row and one column. *)
Theorem legacy_double_click_merges_single_cell :
  forall (st : State) (r c : Z),
    isDragging (dragState st) || isResizing (dragState st) = false ->
    isCellMerged st r c = false ->
    selectedCells st = [] ->
    let st' := Legacy.handleCellClick r c (Legacy.handleCellClick r c st) in
    exists m,
      mergedCells st' = mergedCells st ++ [m] /\
      id m = nextCellId st /\
      rowStart m = r /\ rowEnd m = r + 1 /\ colStart m = c /\ colEnd m = c + 1 /\
      selectedCells st' = [] /\
      nextCellId st' = nextCellId st + 1.
Proof.
  intros st r c Hblock Hfree Hsel st'.
  assert (E1 : Legacy.handleCellClick r c st =
               setSelectedCells (fun _ => [mkCoord r c]) st).
  { unfold Legacy.handleCellClick. now rewrite Hblock, Hfree, Hsel. }
  assert (E2 : st' =
    setSelectedCells (fun _ => [])
      (setNextCellId (fun prev => prev + 1)
         (setMergedCells
            (fun prev => prev ++
               [{| id := nextCellId st; rowStart := r; rowEnd := r + 1;
                   colStart := c; colEnd := c + 1;
                   content := if fillSampleText (config st)
                              then "Cell " +++ Js.num (nextCellId st)
                              else EmptyString |}])
            (setSelectedCells (fun _ => [mkCoord r c; mkCoord r c])
               (setSelectedCells (fun _ => [mkCoord r c]) st))))).
  { unfold st'. rewrite E1. unfold Legacy.handleCellClick. simpl. rewrite Hblock.
    replace (isCellMerged (setSelectedCells (fun _ => [mkCoord r c]) st) r c)
      with (isCellMerged st r c) by reflexivity.
    rewrite Hfree. simpl. now rewrite !Z.min_id, !Z.max_id. }
  rewrite E2. eexists. split; [reflexivity|]. simpl. repeat split.
Qed.

Lemma legacy_double_click_merges_single_cell_witness :
  exists m,
    mergedCells (Legacy.handleCellClick 1 1 (Legacy.handleCellClick 1 1 initialState)) = [m] /\
    rowStart m = 1 /\ rowEnd m = 2 /\ colStart m = 1 /\ colEnd m = 2.
Proof.
  destruct (legacy_double_click_merges_single_cell initialState 1 1 eq_refl eq_refl eq_refl)
    as (m & Hm & _ & H1 & H2 & H3 & H4 & _).
  exists m. split; [exact Hm|]. repeat split; assumption.
Defined.





(** ** Handles and scheduled merges *)

Lemma upto_In (n i : Z) : In i (Js.upto n) <-> 0 <= i < n.
Proof.
  unfold Js.upto. rewrite in_map_iff. split.
  - intros (k & <- & Hk). apply in_seq in Hk. lia.
  - intro H. exists (Z.to_nat i). split; [lia|]. apply in_seq. lia.
Qed.

(** While the sizing arrays track the counts, every rendered column (row)
    handle starts a resize of an existing column (row), never of the first
    one: the index it stores is at least 1 and is an index of the array. *)
Theorem handles_target_existing_axes :
  forall (st : State) (e : MouseEvent) (i : Z),
    sizesTrack st = true ->
    (In i (columnHandles st) ->
     exists w,
       resizingColumnIndex (dragState (columnHandleDown e i st)) = Some (i + 1) /\
       1 <= i + 1 /\
       Js.index (columnWidths (config st)) (i + 1) = Some w /\ 40 <= w) /\
    (In i (rowHandles st) ->
     exists h,
       resizingRowIndex (dragState (rowHandleDown e i st)) = Some (i + 1) /\
       1 <= i + 1 /\
       Js.index (rowHeights (config st)) (i + 1) = Some h /\ 30 <= h).
Proof.
  intros st e i H. unfold sizesTrack in H.
  apply andb_true_iff in H as [H Hhs]. apply andb_true_iff in H as [H Hws].
  apply andb_true_iff in H as [Hlw Hlh]. unbool.
  rewrite forallb_forall in Hws. rewrite forallb_forall in Hhs.
  split; intro Hin; apply upto_In in Hin.
  - destruct (nth_error (columnWidths (config st)) (Z.to_nat (i + 1))) as [w|] eqn:Hw.
    + exists w. repeat split; try lia.
      * apply index_Some_nth. split; [lia | exact Hw].
      * apply nth_error_In in Hw. specialize (Hws w Hw). unbool. lia.
    + apply nth_error_None in Hw. lia.
  - destruct (nth_error (rowHeights (config st)) (Z.to_nat (i + 1))) as [h|] eqn:Hh.
    + exists h. repeat split; try lia.
      * apply index_Some_nth. split; [lia | exact Hh].
      * apply nth_error_In in Hh. specialize (Hhs h Hh). unbool. lia.
    + apply nth_error_None in Hh. lia.
Qed.

Lemma handles_target_existing_axes_witness :
  columnHandles initialState = [0; 1] /\
  exists w, Js.index (columnWidths (config initialState)) 2 = Some w /\ 40 <= w.
Proof.
  split; [reflexivity|].
  destruct (proj1 (handles_target_existing_axes initialState (mkMouse 0 0) 1 eq_refl))
    as (w & _ & _ & Hw & Hmin).
  - right; left; reflexivity.
  - exists w. split; [exact Hw | exact Hmin].
Defined.

Lemma step_keeps_timers_two (ev : Event) (st st' : State) :
  Forall holdsTwo (timers st) ->
  step ev st = Some st' ->
  Forall holdsTwo (timers st').
Proof.
  intro H. destruct ev; simpl step.
  - unfold onRowsChange, changeConfig, runEffects, sizeEffect.
    branches; intro E; inversion E; subst; exact H.
  - unfold onColumnsChange, changeConfig, runEffects, sizeEffect.
    branches; intro E; inversion E; subst; exact H.
  - unfold changeConfig, runEffects, sizeEffect.
    branches; intro E; inversion E; subst; exact H.
  - intro E; injection E as <-. unfold handleCellClick.
    branches; try exact H. simpl.
    apply Forall_app. split; [exact H|]. constructor; [|constructor].
    unfold holdsTwo; simpl. unbool. lia.
  - intro E; injection E as <-. unfold fireTimeout.
    destruct (timers st) as [|t rest] eqn:Ht; [now rewrite Ht|]. simpl. now inversion H.
  - intro E; injection E as <-. unfold mergeSelectedClick. branches; exact H.
  - intro E; injection E as <-. exact H.
  - intro E; injection E as <-. exact H.
  - intro E; injection E as <-. exact H.
  - intro E; injection E as <-. exact H.
  - intro E; injection E as <-. destruct shiftKey; exact H.
  - intro E; injection E as <-.
    unfold onMouseMove, handleColumnResizeMove, handleRowResizeMove, handleResizeMove,
      handleIndividualCellResizeMove, handleDragMove.
    branches; exact H.
  - intro E; injection E as <-. unfold onMouseUp. branches; exact H.
  - unfold runEffects, sizeEffect.
    branches; intro E; inversion E; subst; exact H.
Qed.

(** A merge never sees an empty selection.  Along every sequence of
    operations each scheduled merge holds two or more coordinates, so the
    bounds of every merged cell created by a timeout or by the merge button
    are the least and greatest selected row and column (never the
    [Infinity] of an empty [Math.min]). *)
Theorem merges_read_two_or_more_cells :
  forall (evs : list Event) (st0 st : State),
    Forall holdsTwo (timers st0) ->
    run evs st0 = Some st ->
    Forall holdsTwo (timers st) /\
    (forall st', step Timeout st = Some st' ->
       mergedCells st' = mergedCells st \/
       exists sel cid fill,
         sel <> [] /\
         mergedCells st' = mergedCells st ++ [newMergedCell sel cid fill] /\
         In (rowStart (newMergedCell sel cid fill)) (map row sel) /\
         In (colStart (newMergedCell sel cid fill)) (map col sel)) /\
    (forall st', step MergeButton st = Some st' ->
       mergedCells st' = mergedCells st \/
       exists sel cid fill,
         sel <> [] /\
         mergedCells st' = mergedCells st ++ [newMergedCell sel cid fill] /\
         In (rowStart (newMergedCell sel cid fill)) (map row sel) /\
         In (colStart (newMergedCell sel cid fill)) (map col sel)).
Proof.
  assert (Hrun : forall evs st0 st, Forall holdsTwo (timers st0) -> run evs st0 = Some st ->
                                    Forall holdsTwo (timers st)).
  { induction evs as [|ev evs IH]; intros st0 st H0; simpl.
    - intro E; injection E as <-. exact H0.
    - destruct (step ev st0) as [st1|] eqn:Hstep; [|discriminate].
      apply IH. apply (step_keeps_timers_two ev st0 st1 H0 Hstep). }
  assert (Hbox : forall sel cid fill, sel <> [] ->
             In (rowStart (newMergedCell sel cid fill)) (map row sel) /\
             In (colStart (newMergedCell sel cid fill)) (map col sel)).
  { intros sel cid fill Hne.
    destruct (newMergedCell_box sel cid fill Hne) as (_ & (p & Hp & Er) & _ & (q & Hq & Ec) & _).
    split; [rewrite Er | rewrite Ec]; now apply in_map. }
  intros evs st0 st H0 Hst.
  pose proof (Hrun evs st0 st H0 Hst) as Htimers.
  split; [exact Htimers|]. split.
  - intros st' E. simpl in E. injection E as <-. unfold fireTimeout.
    destruct (timers st) as [|t rest] eqn:Ht; [now left|]. right.
    inversion Htimers as [|t0 ts Htwo _]; subst.
    assert (Hne : timerSelection t <> []).
    { unfold holdsTwo in Htwo. destruct (timerSelection t); [simpl in Htwo; lia | congruence]. }
    exists (timerSelection t), (timerCellId t), (timerFill t).
    split; [exact Hne|]. split; [reflexivity | now apply Hbox].
  - intros st' E. simpl in E. injection E as <-. unfold mergeSelectedClick.
    destruct (2 <=? _) eqn:Hlen; [|now left]. right.
    assert (Hne : selectedCells st <> []).
    { destruct (selectedCells st); [simpl in Hlen; discriminate | congruence]. }
    exists (selectedCells st), (nextCellId st), (fillSampleText (config st)).
    split; [exact Hne|]. split; [reflexivity | now apply Hbox].
Qed.

Lemma merges_read_two_or_more_cells_witness :
  Forall holdsTwo (timers (stateAfter [CellClick 0 0; CellClick 0 1; CellClick 0 2])).
Proof.
  refine (proj1 (merges_read_two_or_more_cells [CellClick 0 0; CellClick 0 1; CellClick 0 2]
                   initialState _ _ eq_refl)).
  constructor.
Defined.
